(** * The CAD engine: STEP to STL conversion pipeline

    A shallow embedding of [cad-engine/exceptions.py], [validators.py],
    [config.py] and [services.py], and the properties of the file validator,
    the configuration loader and the three-stage conversion pipeline.

    Conventions of the embedding.
    - Python exceptions are values [exn] made of a class and the text that
      [str(e)] returns.  The universe of classes is [Exception] and the
      subclasses that this code base raises or catches; signals that derive
      from [BaseException] only (keyboard interrupt, interpreter exit) are
      outside the model.
    - A computation is a function from the state of the world to a result
      (a value or a raised exception) and the world afterwards.  The world
      holds the file system and the ordered log of the calls made to the
      operating system and to the geometry kernel.
    - The geometry kernel (OpenCascade) is not part of the repository.  It is
      a record of oracles; each oracle sees the whole world, hence the whole
      history of earlier calls, and may return or raise.
    - [logger.*] calls format and emit text and do not alter control flow;
      they are left out, except where formatting the text calls the kernel.
    - The accessors [IsNull()] and [ShapeType()] of a shape are answered
      from the shape record: they do not raise and have no entry in the
      log. *)

From Stdlib Require Import ZArith String Ascii List Lia PrimFloat.
From stdpp Require Import base option list strings gmap pretty.

Set Warnings "-inexact-float".
Local Open Scope Z_scope.

(* ===================================================================== *)
(** * exceptions.py *)
(* ===================================================================== *)

Inductive exn_class : Set :=
  | Exception
  | OSError
  | ValueError
  | ArithmeticError
  | OverflowError
  | RuntimeError
  | CADEngineException
  | FileValidationError
  | FileSizeExceededError
  | InvalidFileTypeError
  | StepReadError
  | MeshingError
  | StlWriteError
  | ConversionError.

#[global] Instance exn_class_eq_dec : EqDecision exn_class.
Proof. solve_decision. Defined.

(** The direct base class, as declared in [exceptions.py] and, for the
    built-in classes, by the interpreter. *)
Definition base_class (c : exn_class) : option exn_class :=
  match c with
  | Exception => None
  | OSError | ValueError | ArithmeticError | RuntimeError => Some Exception
  | OverflowError => Some ArithmeticError
  | CADEngineException => Some Exception
  | FileValidationError => Some CADEngineException
  | FileSizeExceededError | InvalidFileTypeError => Some FileValidationError
  | StepReadError | MeshingError | StlWriteError | ConversionError =>
      Some CADEngineException
  end.

Fixpoint issubclass_upto (depth : nat) (c d : exn_class) : bool :=
  if decide (c = d) then true
  else match depth with
       | O => false
       | S depth' =>
           match base_class c with
           | Some b => issubclass_upto depth' b d
           | None => false
           end
       end.

(** The hierarchy is three levels deep below [Exception]. *)
Definition issubclass : exn_class -> exn_class -> bool := issubclass_upto 3.

(** [IOError] is an alias of [OSError] in Python 3. *)
Definition IOError : exn_class := OSError.

Record exn : Set := mk_exn { exn_cls : exn_class; str : string }.

Definition isinstance (e : exn) (c : exn_class) : bool :=
  issubclass (exn_cls e) c.

Inductive result (A : Type) : Type :=
  | Ok (a : A)
  | Raise (e : exn).
Arguments Ok {A} a.
Arguments Raise {A} e.

(* ===================================================================== *)
(** * The world: file system, kernel objects, call log *)
(* ===================================================================== *)

Definition bytes : Set := list Byte.byte.

(** What happens when a file is opened and read. *)
Inductive io_behaviour : Set :=
  | io_ok
  | io_open_fails
  | io_read_fails.

Record file : Set := mk_file { f_data : bytes; f_io : io_behaviour }.

(** [TopAbs_ShapeEnum] of the kernel. *)
Inductive TopAbs_ShapeEnum : Set :=
  | TopAbs_COMPOUND | TopAbs_COMPSOLID | TopAbs_SOLID | TopAbs_SHELL
  | TopAbs_FACE | TopAbs_WIRE | TopAbs_EDGE | TopAbs_VERTEX | TopAbs_SHAPE.

(** [TopoDS_Shape]: an opaque handle, the answer of [IsNull()] and the
    answer of [ShapeType()]. *)
Record TopoDS_Shape : Set := mk_shape {
  shape_handle : nat;
  IsNull : bool;
  ShapeType : TopAbs_ShapeEnum
}.

(** [IFSelect_ReturnStatus] of the kernel. *)
Inductive IFSelect_ReturnStatus : Set :=
  | IFSelect_RetVoid | IFSelect_RetDone | IFSelect_RetError
  | IFSelect_RetFail | IFSelect_RetStop.

#[global] Instance IFSelect_ReturnStatus_eq_dec : EqDecision IFSelect_ReturnStatus.
Proof. solve_decision. Defined.

Definition status_code (s : IFSelect_ReturnStatus) : Z :=
  match s with
  | IFSelect_RetVoid => 0 | IFSelect_RetDone => 1 | IFSelect_RetError => 2
  | IFSelect_RetFail => 3 | IFSelect_RetStop => 4
  end.

(** A [BRepMesh_IncrementalMesh] object remembers the arguments of its
    constructor. *)
Record BRepMesh_IncrementalMesh : Set := mk_mesh {
  mesh_shape : TopoDS_Shape;
  mesh_linear_deflection : float;
  mesh_is_relative : bool;
  mesh_angular_deflection : float;
  mesh_in_parallel : bool
}.

(** One entry per call to the operating system and per call on a reader,
    mesh or writer object of the kernel.  The accessors of a shape,
    [IsNull()] and [ShapeType()], have no entry. *)
Inductive event : Set :=
  | os_path_exists_called (path : string)
  | os_path_getsize_called (path : string)
  | open_rb_called (path : string)
  | file_read_called (path : string) (n : nat)
  | STEPControl_Reader_created
  | ReadFile_called (path : string)
  | TransferRoots_called (path : string)
  | OneShape_called (path : string)
  | BRepMesh_IncrementalMesh_created (m : BRepMesh_IncrementalMesh)
  | Perform_called (m : BRepMesh_IncrementalMesh)
  | IsDone_called (m : BRepMesh_IncrementalMesh)
  | StlAPI_Writer_created
  | SetASCIIMode_called (ascii_mode : bool)
  | Write_called (shape : TopoDS_Shape) (path : string) (ascii_mode : bool).

Record World : Type := mk_world {
  w_fs : gmap string file;
  w_trace : list event
}.

Definition log_event (ev : event) (w : World) : World :=
  {| w_fs := w_fs w; w_trace := w_trace w ++ [ev] |}.

(** ** The monad of computations *)

Definition M (A : Type) : Type := World -> result A * World.

#[global] Instance M_ret : MRet M := fun A a w => (Ok a, w).

#[global] Instance M_bind : MBind M := fun A B k m w =>
  match m w with
  | (Ok a, w') => k a w'
  | (Raise e, w') => (Raise e, w')
  end.

Definition raise {A} (cls : exn_class) (msg : string) : M A :=
  fun w => (Raise (mk_exn cls msg), w).

Definition reraise {A} (e : exn) : M A := fun w => (Raise e, w).

(** [try: body  except ...: handler]; the handler receives the exception
    and decides itself which classes it catches. *)
Definition try_except {A} (body : M A) (handler : exn -> M A) : M A :=
  fun w =>
    match body w with
    | (Ok a, w') => (Ok a, w')
    | (Raise e, w') => handler e w'
    end.

Definition emit (ev : event) : M unit := fun w => (Ok tt, log_event ev w).

(** ** Operating-system calls *)

Definition errno_text (what path : string) : string :=
  what +:+ ": '" +:+ path +:+ "'".

Definition os_path_exists (path : string) : M bool := fun w =>
  (Ok (bool_decide (is_Some (w_fs w !! path))),
   log_event (os_path_exists_called path) w).

Definition os_path_getsize (path : string) : M Z := fun w =>
  let w' := log_event (os_path_getsize_called path) w in
  match w_fs w !! path with
  | Some f => (Ok (Z.of_nat (length (f_data f))), w')
  | None =>
      (Raise (mk_exn OSError
                (errno_text "[Errno 2] No such file or directory" path)), w')
  end.

(** [with open(path, 'rb') as f: header = f.read(n)] *)
Definition open_rb_read (path : string) (n : nat) : M bytes := fun w =>
  let w1 := log_event (open_rb_called path) w in
  match w_fs w !! path with
  | None =>
      (Raise (mk_exn OSError
                (errno_text "[Errno 2] No such file or directory" path)), w1)
  | Some f =>
      match f_io f with
      | io_open_fails =>
          (Raise (mk_exn OSError
                    (errno_text "[Errno 13] Permission denied" path)), w1)
      | io_read_fails =>
          (Raise (mk_exn OSError "[Errno 5] Input/output error"),
           log_event (file_read_called path n) w1)
      | io_ok =>
          (Ok (take n (f_data f)), log_event (file_read_called path n) w1)
      end
  end.

(* ===================================================================== *)
(** * Python library functions used by the code *)
(* ===================================================================== *)

Module Py.

(** [str.lower()] and [str.upper()] on the ASCII range. *)
Definition lower_char (c : ascii) : ascii :=
  let n := nat_of_ascii c in
  if (65 <=? n)%nat && (n <=? 90)%nat then ascii_of_nat (n + 32) else c.

Definition upper_char (c : ascii) : ascii :=
  let n := nat_of_ascii c in
  if (97 <=? n)%nat && (n <=? 122)%nat then ascii_of_nat (n - 32) else c.

Fixpoint map_string (f : ascii -> ascii) (s : string) : string :=
  match s with
  | EmptyString => EmptyString
  | String c s' => String (f c) (map_string f s')
  end.

Definition lower : string -> string := map_string lower_char.
Definition upper : string -> string := map_string upper_char.

(** [s.strip()]: ASCII white space removed at both ends. *)
Definition is_space (c : ascii) : bool :=
  let n := nat_of_ascii c in
  ((9 <=? n)%nat && (n <=? 13)%nat) || ((28 <=? n)%nat && (n <=? 32)%nat).

Fixpoint lstrip (s : string) : string :=
  match s with
  | EmptyString => EmptyString
  | String c s' => if is_space c then lstrip s' else s
  end.

Fixpoint rstrip (s : string) : string :=
  match s with
  | EmptyString => EmptyString
  | String c s' =>
      match rstrip s' with
      | EmptyString => if is_space c then EmptyString else String c EmptyString
      | r => String c r
      end
  end.

Definition strip (s : string) : string := rstrip (lstrip s).

(** [s.split(sep)] for a separator of one character. *)
Fixpoint split (sep : ascii) (s : string) : list string :=
  match s with
  | EmptyString => [EmptyString]
  | String c s' =>
      if Ascii.eqb c sep then EmptyString :: split sep s'
      else match split sep s' with
           | x :: xs => String c x :: xs
           | [] => [String c EmptyString]
           end
  end.

(** [s.rfind(c)]: the highest index of [c], if any. *)
Fixpoint rfind (c : ascii) (s : string) : option nat :=
  match s with
  | EmptyString => None
  | String a s' =>
      match rfind c s' with
      | Some i => Some (S i)
      | None => if Ascii.eqb a c then Some O else None
      end
  end.

(** [PurePosixPath(p).name]: the last component that is neither empty nor a
    single dot. *)
Definition is_path_part (x : string) : bool :=
  negb (String.eqb x "") && negb (String.eqb x ".").

Definition path_name (p : string) : string :=
  List.last (List.filter is_path_part (split "/" p)) "".

(** [Path(p).suffix]: the text from the last dot of the name on, unless that
    dot opens or closes the name. *)
Definition path_suffix (p : string) : string :=
  let name := path_name p in
  match rfind "." name with
  | Some i =>
      if (0 <? i)%nat && (i <? String.length name - 1)%nat
      then String.substring i (String.length name - i) name
      else ""
  | None => ""
  end.

(** [needle in haystack] on byte strings. *)
Definition byte_eqb (a b : Byte.byte) : bool := Byte.eqb a b.

Fixpoint starts_with (needle hay : bytes) : bool :=
  match needle, hay with
  | [], _ => true
  | _ :: _, [] => false
  | a :: needle', b :: hay' => byte_eqb a b && starts_with needle' hay'
  end.

Fixpoint bytes_in (needle hay : bytes) : bool :=
  starts_with needle hay ||
  match hay with
  | [] => false
  | _ :: hay' => bytes_in needle hay'
  end.

(** ** [int / int] and the [.2f] format

    [a / b] on Python integers is the binary64 number nearest to the exact
    quotient (ties to even) and raises [OverflowError] when that is out of
    range.  For the divisor [1024 * 1024 = 2^20] the quotient is the
    dividend rounded to 53 significant bits, scaled by [2^-20]; a binary64
    number of that form is kept as its numerator over [2^20]. *)

Definition MiB : Z := 1024 * 1024.

Definition round_half_even (a b : Z) : Z :=
  let q := a / b in
  let r := a mod b in
  if 2 * r <? b then q
  else if b <? 2 * r then q + 1
  else if Z.even q then q else q + 1.

Definition round_53_bits (n : Z) : Z :=
  let k := Z.log2 n - 52 in
  if k <=? 0 then n else round_half_even n (2 ^ k) * 2 ^ k.

(** [n / (1024 * 1024)]: [Some num] stands for the float [num / 2^20],
    [None] for [OverflowError]. *)
Definition truediv_MiB (n : Z) : option Z :=
  let m := round_53_bits (Z.abs n) in
  if 2 ^ 1044 <=? m then None else Some (Z.sgn n * m).

Definition two_digits (d : Z) : string :=
  if d <? 10 then "0" +:+ pretty d else pretty d.

(** The nearest multiple of 0.01 to [num / 2^20] (ties to even), counted in
    hundredths. *)
Definition hundredths (num : Z) : Z := round_half_even (Z.abs num * 100) MiB.

(** [f"{x:.2f}"] for the float [x = num / 2^20]. *)
Definition format_2f (num : Z) : string :=
  let h := hundredths num in
  (if num <? 0 then "-" else "") +:+ pretty (h / 100) +:+ "." +:+
  two_digits (h mod 100).

End Py.

(* ===================================================================== *)
(** * validators.py *)
(* ===================================================================== *)

Definition b (s : string) : bytes := String.list_byte_of_string s.

(** STEP file magic numbers (file signatures). *)
Definition STEP_MAGIC_NUMBERS : list bytes :=
  [ b "ISO-10303-21;";   (* Standard STEP header *)
    b "ISO-10303-28;" ]. (* XML STEP *)

(** Allowed file extensions. *)
Definition ALLOWED_EXTENSIONS : gset string :=
  {[ ".step"; ".stp"; ".iges"; ".igs" ]}.

Module FileValidator.

Record t : Set := new { max_file_size_bytes : Z }.

Section Methods.

(** The text of [', '.join(ALLOWED_EXTENSIONS)].  The order in which a set of
    strings is iterated is fixed by the interpreter at start-up. *)
Variable allowed_listing : string.

Definition validate_file_size (self : t) (file_path : string) : M unit :=
  file_size ← os_path_getsize file_path;
  if bool_decide (file_size > max_file_size_bytes self) then
    match Py.truediv_MiB (max_file_size_bytes self) with
    | None =>
        raise OverflowError "integer division result too large for a float"
    | Some max_mb =>
        match Py.truediv_MiB file_size with
        | None =>
            raise OverflowError "integer division result too large for a float"
        | Some actual_mb =>
            raise FileSizeExceededError
              ("File size " +:+ Py.format_2f actual_mb +:+
               "MB exceeds maximum allowed size " +:+ Py.format_2f max_mb +:+
               "MB")
        end
    end
  else mret tt.

Definition validate_file_extension (self : t) (filename : string) : M string :=
  let file_ext := Py.lower (Py.path_suffix filename) in
  if bool_decide (file_ext ∉ ALLOWED_EXTENSIONS) then
    raise InvalidFileTypeError
      ("Invalid file type: " +:+ file_ext +:+ ". Supported: " +:+
       allowed_listing)
  else mret file_ext.

Definition validate_magic_number (self : t) (file_path : string) : M unit :=
  try_except
    ((* Read first 512 bytes for magic number check *)
     header ← open_rb_read file_path 512;
     (* Check for STEP magic numbers *)
     let is_valid :=
       existsb (fun magic_num => Py.bytes_in magic_num header)
               STEP_MAGIC_NUMBERS in
     if negb is_valid then
       raise InvalidFileTypeError
         ("File content does not match STEP format. " +:+
          "Please upload a valid STEP/IGES file.")
     else mret tt)
    (fun e =>
       if isinstance e IOError then
         raise InvalidFileTypeError
           ("Cannot read file for validation: " +:+ str e)
       else reraise e).

Definition validate_file (self : t) (file_path filename : string)
  : M (string * Z) :=
  (* 1. Validate extension *)
  file_ext ← validate_file_extension self filename;
  (* 2. Validate size *)
  _ ← validate_file_size self file_path;
  (* 3. Validate magic number (content) *)
  _ ← validate_magic_number self file_path;
  (* Return validated info *)
  file_size ← os_path_getsize file_path;
  mret (file_ext, file_size).

End Methods.

End FileValidator.

(* ===================================================================== *)
(** * config.py *)
(* ===================================================================== *)

#[global] Instance result_ret : MRet result := fun A a => Ok a.

#[global] Instance result_bind : MBind result := fun A B k r =>
  match r with
  | Ok a => k a
  | Raise e => Raise e
  end.

Module AppConfig.

(** Application configuration loaded from environment variables. *)
Record t : Set := new {
  (* Server *)
  port : Z;
  host : string;
  environment : string;
  (* Security *)
  cors_origins : list string;
  max_file_size_bytes : Z;
  rate_limit_per_minute : Z;
  (* Conversion settings *)
  linear_deflection : float;
  angular_deflection : float;
  (* Storage *)
  temp_dir : string;
  (* Logging *)
  log_level : string
}.

(** [os.getenv(name, default)] on the process environment. *)
Definition getenv (env : gmap string string) (name default : string) : string :=
  match env !! name with
  | Some v => v
  | None => default
  end.

Section Methods.

(** The built-in conversions [int(s)] and [float(s)] of a string, [None]
    standing for the [ValueError] they raise on text that is not a number,
    and the text [str(x)] of a float. *)
Variable py_int : string -> option Z.
Variable py_float : string -> option float.
Variable py_float_str : float -> string.

Definition int (s : string) : result Z :=
  match py_int s with
  | Some n => Ok n
  | None =>
      Raise (mk_exn ValueError
               ("invalid literal for int() with base 10: '" +:+ s +:+ "'"))
  end.

Definition float_of_str (s : string) : result float :=
  match py_float s with
  | Some x => Ok x
  | None =>
      Raise (mk_exn ValueError
               ("could not convert string to float: '" +:+ s +:+ "'"))
  end.

(** The chained comparison [lo <= x <= hi] on floats. *)
Definition between (lo x hi : float) : bool :=
  PrimFloat.leb lo x && PrimFloat.leb x hi.

(** Load configuration from environment variables with validation. *)
Definition from_env (env : gmap string string) : result t :=
  (* Parse CORS origins *)
  let cors_origins_str := getenv env "CORS_ORIGINS" "http://localhost:3000" in
  let cors_origins := List.map Py.strip (Py.split "," cors_origins_str) in
  (* Parse file size (convert MB to bytes) *)
  max_file_size_mb ← int (getenv env "MAX_FILE_SIZE_MB" "50");
  let max_file_size_bytes := max_file_size_mb * 1024 * 1024 in
  (* Parse conversion settings *)
  linear_deflection ← float_of_str (getenv env "LINEAR_DEFLECTION" "0.1");
  angular_deflection ← float_of_str (getenv env "ANGULAR_DEFLECTION" "0.5");
  (* Validate deflection values *)
  if negb (between 0.001 linear_deflection 1.0) then
    Raise (mk_exn ValueError
             ("LINEAR_DEFLECTION must be between 0.001 and 1.0, got " +:+
              py_float_str linear_deflection))
  else if negb (between 0.1 angular_deflection 1.0) then
    Raise (mk_exn ValueError
             ("ANGULAR_DEFLECTION must be between 0.1 and 1.0, got " +:+
              py_float_str angular_deflection))
  else
    port ← int (getenv env "PORT" "5000");
    rate_limit_per_minute ← int (getenv env "RATE_LIMIT_PER_MINUTE" "10");
    mret {| port := port;
            host := getenv env "HOST" "0.0.0.0";
            environment := getenv env "NODE_ENV" "development";
            cors_origins := cors_origins;
            max_file_size_bytes := max_file_size_bytes;
            rate_limit_per_minute := rate_limit_per_minute;
            linear_deflection := linear_deflection;
            angular_deflection := angular_deflection;
            temp_dir := getenv env "TMPDIR" "/tmp/cad-files";
            log_level := Py.upper (getenv env "LOG_LEVEL" "info") |}.

End Methods.

(** Check if running in production mode. *)
Definition is_production (self : t) : bool :=
  String.eqb (Py.lower (environment self)) "production".

(** Validate configuration values. *)
Definition validate (self : t) : result unit :=
  if (port self <? 1) || (65535 <? port self) then
    Raise (mk_exn ValueError ("Invalid port: " +:+ pretty (port self)))
  else if max_file_size_bytes self <? 1024 * 1024 then (* Minimum 1MB *)
    Raise (mk_exn ValueError "MAX_FILE_SIZE_MB must be at least 1")
  else if rate_limit_per_minute self <? 1 then
    Raise (mk_exn ValueError "RATE_LIMIT_PER_MINUTE must be at least 1")
  else if bool_decide (cors_origins self = []) then
    Raise (mk_exn ValueError "CORS_ORIGINS cannot be empty")
  else Ok tt.

End AppConfig.

(* ===================================================================== *)
(** * services.py *)
(* ===================================================================== *)

(** The geometry kernel behind the three services.  Every oracle receives
    the world at the time of the call.  Only [Write] touches the file
    system: it hands back the file system it leaves behind, whether it
    returns or raises. *)
Record Kernel : Type := mk_Kernel {
  ReadFile : World -> string -> result IFSelect_ReturnStatus;
  TransferRoots : World -> string -> result Z;
  OneShape : World -> string -> result TopoDS_Shape;
  IncrementalMesh : World -> BRepMesh_IncrementalMesh -> result unit;
  Perform : World -> BRepMesh_IncrementalMesh -> result unit;
  IsDone : World -> BRepMesh_IncrementalMesh -> result bool;
  Write : World -> TopoDS_Shape -> string -> bool ->
          result unit * gmap string file
}.

(** A kernel call that leaves the file system alone. *)
Definition kernel_call {A} (ev : event) (oracle : World -> result A) : M A :=
  fun w => (oracle w, log_event ev w).

(** [stl_writer.Write(shape, path)] *)
Definition kernel_write (K : Kernel) (shape : TopoDS_Shape) (path : string)
    (ascii_mode : bool) : M unit :=
  fun w =>
    let '(r, fs') := Write K w shape path ascii_mode in
    (r, {| w_fs := fs';
           w_trace := w_trace w ++ [Write_called shape path ascii_mode] |}).

(** Reads STEP files and converts to TopoDS_Shape. *)
Module StepReader.

Record t : Set := new { }.

(** Read STEP file and return shape. *)
Definition read (K : Kernel) (self : t) (step_file_path : string)
  : M TopoDS_Shape :=
  try_except
    ((* Verify file exists *)
     found ← os_path_exists step_file_path;
     if negb found then
       raise StepReadError
         ("STEP file does not exist: " +:+ step_file_path)
     else
       file_size ← os_path_getsize step_file_path;
       (* Create STEP reader *)
       _ ← emit STEPControl_Reader_created;
       (* Read file *)
       status ← kernel_call (ReadFile_called step_file_path)
                  (fun w => ReadFile K w step_file_path);
       if bool_decide (status ≠ IFSelect_RetDone) then
         raise StepReadError
           ("Failed to read STEP file, status code: " +:+
            pretty (status_code status))
       else
         (* Transfer roots to document *)
         nb_roots ← kernel_call (TransferRoots_called step_file_path)
                      (fun w => TransferRoots K w step_file_path);
         (* Get shape *)
         shape ← kernel_call (OneShape_called step_file_path)
                   (fun w => OneShape K w step_file_path);
         if IsNull shape then
           raise StepReadError "STEP file contains no valid shapes"
         else mret shape)
    (fun e =>
       if isinstance e StepReadError then reraise e
       else if isinstance e Exception then
         raise StepReadError ("Error reading STEP file: " +:+ str e)
       else reraise e).

End StepReader.

(** Creates triangular mesh from B-Rep shapes. *)
Module ShapeMesher.

Record t : Set := new {
  linear_deflection : float;
  angular_deflection : float
}.

(** Create triangular mesh from B-Rep shape. *)
Definition mesh (K : Kernel) (self : t) (shape : TopoDS_Shape)
  : M TopoDS_Shape :=
  try_except
    ((* Create incremental mesh *)
     let mesh :=
       {| mesh_shape := shape;
          mesh_linear_deflection := linear_deflection self;
          mesh_is_relative := false;  (* Not relative *)
          mesh_angular_deflection := angular_deflection self;
          mesh_in_parallel := true    (* In parallel *) |} in
     _ ← kernel_call (BRepMesh_IncrementalMesh_created mesh)
           (fun w => IncrementalMesh K w mesh);
     _ ← kernel_call (Perform_called mesh) (fun w => Perform K w mesh);
     done ← kernel_call (IsDone_called mesh) (fun w => IsDone K w mesh);
     if negb done then raise MeshingError "Meshing operation failed"
     else mret shape)
    (fun e =>
       if isinstance e MeshingError then reraise e
       else if isinstance e Exception then
         raise MeshingError ("Error meshing shape: " +:+ str e)
       else reraise e).

End ShapeMesher.

(** Writes TopoDS_Shape to STL file. *)
Module StlWriter.

Record t : Set := new { ascii_mode : bool }.

(** Write shape to STL file. *)
Definition write (K : Kernel) (self : t) (shape : TopoDS_Shape)
    (stl_file_path : string) : M string :=
  try_except
    ((* Create STL writer *)
     _ ← emit StlAPI_Writer_created;
     _ ← emit (SetASCIIMode_called (ascii_mode self));
     (* Write to file *)
     _ ← kernel_write K shape stl_file_path (ascii_mode self);
     (* Verify file was created *)
     found ← os_path_exists stl_file_path;
     if negb found then raise StlWriteError "STL file was not created"
     else
       file_size ← os_path_getsize stl_file_path;
       mret stl_file_path)
    (fun e =>
       if isinstance e StlWriteError then reraise e
       else if isinstance e Exception then
         raise StlWriteError ("Error writing STL file: " +:+ str e)
       else reraise e).

End StlWriter.

(** Orchestrates the complete STEP to STL conversion pipeline. *)
Module ConversionService.

Record t : Set := new {
  step_reader : StepReader.t;
  shape_mesher : ShapeMesher.t;
  stl_writer : StlWriter.t
}.

(** Complete conversion pipeline: STEP -> STL. *)
Definition convert (K : Kernel) (self : t) (step_file_path stl_file_path : string)
  : M string :=
  try_except
    ((* Step 1: Read STEP file *)
     shape ← StepReader.read K (step_reader self) step_file_path;
     (* Step 2: Mesh the shape *)
     meshed_shape ← ShapeMesher.mesh K (shape_mesher self) shape;
     (* Step 3: Write STL file *)
     output_path ← StlWriter.write K (stl_writer self) meshed_shape
                     stl_file_path;
     mret output_path)
    (fun e =>
       if isinstance e StepReadError || isinstance e MeshingError
          || isinstance e StlWriteError then
         raise ConversionError ("Conversion failed: " +:+ str e)
       else if isinstance e Exception then
         raise ConversionError
           ("Unexpected error during conversion: " +:+ str e)
       else reraise e).

End ConversionService.

(* ===================================================================== *)
(** * main.py: the converter behind the HTTP endpoints *)
(* ===================================================================== *)

(** Professional STEP to STL converter.  Its methods report failure through
    their return value: [None] or [False]. *)
Module StepConverter.

Record t : Set := new {
  linear_deflection : float;
  angular_deflection : float
}.

(** Read STEP file and return shape, or [None] if failed. *)
Definition read_step_file (K : Kernel) (self : t) (step_file_path : string)
  : M (option TopoDS_Shape) :=
  try_except
    ((* Verify file exists *)
     found ← os_path_exists step_file_path;
     if negb found then mret None
     else
       file_size ← os_path_getsize step_file_path;
       (* Create STEP reader *)
       _ ← emit STEPControl_Reader_created;
       (* Read file *)
       status ← kernel_call (ReadFile_called step_file_path)
                  (fun w => ReadFile K w step_file_path);
       if bool_decide (status ≠ IFSelect_RetDone) then mret None
       else
         (* Transfer roots to document *)
         nb_roots ← kernel_call (TransferRoots_called step_file_path)
                      (fun w => TransferRoots K w step_file_path);
         (* Get shape *)
         shape ← kernel_call (OneShape_called step_file_path)
                   (fun w => OneShape K w step_file_path);
         if IsNull shape then mret None
         else mret (Some shape))
    (fun e => if isinstance e Exception then mret None else reraise e).

(** Create triangular mesh from B-Rep shape; [true] if meshing succeeded. *)
Definition mesh_shape (K : Kernel) (self : t) (shape : TopoDS_Shape) : M bool :=
  try_except
    ((* Create incremental mesh *)
     let mesh :=
       {| mesh_shape := shape;
          mesh_linear_deflection := linear_deflection self;
          mesh_is_relative := false;  (* Not relative *)
          mesh_angular_deflection := angular_deflection self;
          mesh_in_parallel := true    (* In parallel *) |} in
     _ ← kernel_call (BRepMesh_IncrementalMesh_created mesh)
           (fun w => IncrementalMesh K w mesh);
     _ ← kernel_call (Perform_called mesh) (fun w => Perform K w mesh);
     done ← kernel_call (IsDone_called mesh) (fun w => IsDone K w mesh);
     if negb done then mret false
     else mret true)
    (fun e => if isinstance e Exception then mret false else reraise e).

(** Write shape to STL file; [true] if export succeeded. *)
Definition write_stl_file (K : Kernel) (self : t) (shape : TopoDS_Shape)
    (stl_file_path : string) : M bool :=
  try_except
    ((* Create STL writer *)
     _ ← emit StlAPI_Writer_created;
     _ ← emit (SetASCIIMode_called false);  (* Binary STL (smaller files) *)
     (* Write to file *)
     _ ← kernel_write K shape stl_file_path false;
     (* Verify file was created *)
     found ← os_path_exists stl_file_path;
     if negb found then mret false
     else
       file_size ← os_path_getsize stl_file_path;
       mret true)
    (fun e => if isinstance e Exception then mret false else reraise e).

(** Complete conversion pipeline: STEP -> STL; [true] if conversion
    succeeded. *)
Definition convert_step_to_stl (K : Kernel) (self : t)
    (step_file_path stl_file_path : string) : M bool :=
  (* Step 1: Read STEP file *)
  shape ← read_step_file K self step_file_path;
  match shape with
  | None => mret false
  | Some shape =>
      (* Step 2: Mesh the shape *)
      meshed ← mesh_shape K self shape;
      if negb meshed then mret false
      else
        (* Step 3: Write STL file *)
        written ← write_stl_file K self shape stl_file_path;
        if negb written then mret false
        else mret true
  end.

End StepConverter.

(** Global converter instance. *)
Definition converter : StepConverter.t := StepConverter.new 0.1 0.5.

(* ===================================================================== *)
(** * fix_jsx.py: the splice of the repaired lines *)
(* ===================================================================== *)

Module FixJsx.

Definition CRLF : string :=
  String (ascii_of_nat 13) (String (ascii_of_nat 10) EmptyString).

Definition new_ending : list string :=
  [ "              </table>" +:+ CRLF;
    "            </div>" +:+ CRLF;
    "          </div>" +:+ CRLF;
    "            </div>  {/* end lookup panel outer div */}" +:+ CRLF;
    "          </>" +:+ CRLF;
    "        );" +:+ CRLF;
    "      })()}" +:+ CRLF ].

(** Replace lines 1316..1321 (0-indexed). *)
Definition before (lines : list string) : list string := take 1316 lines.
Definition after (lines : list string) : list string := drop 1322 lines.
Definition result (lines : list string) : list string :=
  before lines ++ new_ending ++ after lines.

End FixJsx.

(* ===================================================================== *)
(** * Test doubles for the kernel and sample worlds *)
(* ===================================================================== *)

Module Samples.

Definition unit_cube : TopoDS_Shape :=
  {| shape_handle := 1; IsNull := false; ShapeType := TopAbs_SOLID |}.

Definition null_shape : TopoDS_Shape :=
  {| shape_handle := 0; IsNull := true; ShapeType := TopAbs_SHAPE |}.

(** Header of 80 bytes, a count of 12 triangles, 50 bytes per triangle. *)
Definition cube_stl : bytes :=
  repeat Byte.x00 80 ++ [Byte.x0c; Byte.x00; Byte.x00; Byte.x00] ++
  repeat Byte.x00 (12 * 50).

(** A kernel that parses every file to a cube, meshes it and writes it. *)
Definition cube_kernel : Kernel :=
  {| ReadFile := fun _ _ => Ok IFSelect_RetDone;
     TransferRoots := fun _ _ => Ok 1;
     OneShape := fun _ _ => Ok unit_cube;
     IncrementalMesh := fun _ _ => Ok tt;
     Perform := fun _ _ => Ok tt;
     IsDone := fun _ _ => Ok true;
     Write := fun w _ path _ =>
       (Ok tt, <[path := mk_file cube_stl io_ok]> (w_fs w)) |}.

(** A kernel whose parse yields the null shape. *)
Definition null_shape_kernel : Kernel :=
  {| ReadFile := ReadFile cube_kernel;
     TransferRoots := fun _ _ => Ok 0;
     OneShape := fun _ _ => Ok null_shape;
     IncrementalMesh := IncrementalMesh cube_kernel;
     Perform := Perform cube_kernel;
     IsDone := IsDone cube_kernel;
     Write := Write cube_kernel |}.

(** A kernel whose writer reports no error and creates a file of no bytes. *)
Definition empty_output_kernel : Kernel :=
  {| ReadFile := ReadFile cube_kernel;
     TransferRoots := TransferRoots cube_kernel;
     OneShape := OneShape cube_kernel;
     IncrementalMesh := IncrementalMesh cube_kernel;
     Perform := Perform cube_kernel;
     IsDone := IsDone cube_kernel;
     Write := fun w _ path _ =>
       (Ok tt, <[path := mk_file [] io_ok]> (w_fs w)) |}.

(** A kernel whose writer reports no error and produces nothing. *)
Definition silent_kernel : Kernel :=
  {| ReadFile := ReadFile cube_kernel;
     TransferRoots := TransferRoots cube_kernel;
     OneShape := OneShape cube_kernel;
     IncrementalMesh := IncrementalMesh cube_kernel;
     Perform := Perform cube_kernel;
     IsDone := IsDone cube_kernel;
     Write := fun w _ _ _ => (Ok tt, w_fs w) |}.

(** A kernel whose tessellation returns without completing. *)
Definition unfinished_mesh_kernel : Kernel :=
  {| ReadFile := ReadFile cube_kernel;
     TransferRoots := TransferRoots cube_kernel;
     OneShape := OneShape cube_kernel;
     IncrementalMesh := IncrementalMesh cube_kernel;
     Perform := Perform cube_kernel;
     IsDone := fun _ _ => Ok false;
     Write := Write cube_kernel |}.

Definition step_text : bytes :=
  b "ISO-10303-21;HEADER;FILE_DESCRIPTION(('cube'),'2;1');ENDSEC;".

Definition upload_fs : gmap string file :=
  {[ "/tmp/in.step" := mk_file step_text io_ok ]}.

Definition upload_world : World := {| w_fs := upload_fs; w_trace := [] |}.

Definition locked_world : World :=
  {| w_fs := {[ "/tmp/in.step" := mk_file step_text io_open_fails ]};
     w_trace := [] |}.

Definition renamed_world : World :=
  {| w_fs := {[ "/tmp/in.step" := mk_file (b "PK not a STEP file") io_ok ]};
     w_trace := [] |}.

Definition validator : FileValidator.t :=
  FileValidator.new (50 * 1024 * 1024).

Definition listing : string := ".step, .stp, .iges, .igs".

Definition service : ConversionService.t :=
  {| ConversionService.step_reader := StepReader.new;
     ConversionService.shape_mesher := ShapeMesher.new 0.1 0.5;
     ConversionService.stl_writer := StlWriter.new false |}.

(** [int(s)] for an optional minus sign followed by decimal digits. *)
Definition digit_value (c : ascii) : option Z :=
  let n := nat_of_ascii c in
  if (48 <=? n)%nat && (n <=? 57)%nat then Some (Z.of_nat (n - 48)) else None.

Fixpoint digits_value (acc : Z) (s : string) : option Z :=
  match s with
  | EmptyString => Some acc
  | String c s' =>
      match digit_value c with
      | Some d => digits_value (10 * acc + d) s'
      | None => None
      end
  end.

Definition int_of_string (s : string) : option Z :=
  match s with
  | EmptyString => None
  | String "-" (String c s') => Z.opp <$> digits_value 0 (String c s')
  | _ => digits_value 0 s
  end.

(** [float(s)] on the handful of texts that the examples use. *)
Definition float_of_string (s : string) : option float :=
  if String.eqb s "0.001" then Some 0.001%float
  else if String.eqb s "0.0009" then Some 0.0009%float
  else if String.eqb s "0.1" then Some 0.1%float
  else if String.eqb s "0.5" then Some 0.5%float
  else if String.eqb s "1.0" then Some 1.0%float
  else if String.eqb s "1.1" then Some 1.1%float
  else if String.eqb s "nan" then Some PrimFloat.nan
  else None.

Definition string_of_float (x : float) : string := "<float>".

Definition from_env : gmap string string -> result AppConfig.t :=
  AppConfig.from_env int_of_string float_of_string string_of_float.

End Samples.

(* ===================================================================== *)
(** * Vocabulary of the properties *)
(* ===================================================================== *)

Definition contains (needle hay : bytes) : Prop :=
  ∃ before after, hay = before ++ needle ++ after.

(** The numerator over [2^20] of the float [n / (1024 * 1024)]. *)
Definition MiB_quotient (n : Z) : Z := Z.sgn n * Py.round_53_bits (Z.abs n).

(** The world in which each kernel call of [read] takes place. *)
Definition at_ReadFile (w : World) (p : string) : World :=
  log_event STEPControl_Reader_created
    (log_event (os_path_getsize_called p)
       (log_event (os_path_exists_called p) w)).

Definition at_TransferRoots (w : World) (p : string) : World :=
  log_event (ReadFile_called p) (at_ReadFile w p).

Definition at_OneShape (w : World) (p : string) : World :=
  log_event (TransferRoots_called p) (at_TransferRoots w p).

(** The ways in which a read fails. *)
Inductive read_failure (K : Kernel) (w : World) (p : string) : Prop :=
  | file_missing :
      w_fs w !! p = None → read_failure K w p
  | status_not_done st :
      ReadFile K (at_ReadFile w p) p = Ok st → st ≠ IFSelect_RetDone →
      read_failure K w p
  | shape_is_null s :
      OneShape K (at_OneShape w p) p = Ok s → IsNull s = true →
      read_failure K w p
  | ReadFile_raised e :
      ReadFile K (at_ReadFile w p) p = Raise e → read_failure K w p
  | TransferRoots_raised e :
      TransferRoots K (at_TransferRoots w p) p = Raise e → read_failure K w p
  | OneShape_raised e :
      OneShape K (at_OneShape w p) p = Raise e → read_failure K w p.

(** The calls that the mesher and the writer make to the kernel. *)
Definition mesher_or_writer_call (ev : event) : bool :=
  match ev with
  | BRepMesh_IncrementalMesh_created _ | Perform_called _ | IsDone_called _
  | StlAPI_Writer_created | SetASCIIMode_called _ | Write_called _ _ _ => true
  | _ => false
  end.

(** The mesh object that [mesh] builds, and the worlds of its calls. *)
Definition mesh_object (self : ShapeMesher.t) (shape : TopoDS_Shape)
  : BRepMesh_IncrementalMesh :=
  {| mesh_shape := shape;
     mesh_linear_deflection := ShapeMesher.linear_deflection self;
     mesh_is_relative := false;
     mesh_angular_deflection := ShapeMesher.angular_deflection self;
     mesh_in_parallel := true |}.

Definition at_Perform (w : World) (m : BRepMesh_IncrementalMesh) : World :=
  log_event (BRepMesh_IncrementalMesh_created m) w.

Definition at_IsDone (w : World) (m : BRepMesh_IncrementalMesh) : World :=
  log_event (Perform_called m) (at_Perform w m).

(** The ways in which meshing fails. *)
Inductive mesh_failure (K : Kernel) (w : World) (m : BRepMesh_IncrementalMesh)
  : Prop :=
  | not_done :
      IsDone K (at_IsDone w m) m = Ok false → mesh_failure K w m
  | IncrementalMesh_raised e :
      IncrementalMesh K w m = Raise e → mesh_failure K w m
  | Perform_raised e :
      Perform K (at_Perform w m) m = Raise e → mesh_failure K w m
  | IsDone_raised e :
      IsDone K (at_IsDone w m) m = Raise e → mesh_failure K w m.

(** The world in which the kernel writes, and the world it leaves. *)
Definition at_Write (w : World) (self : StlWriter.t) : World :=
  log_event (SetASCIIMode_called (StlWriter.ascii_mode self))
    (log_event StlAPI_Writer_created w).

Definition after_Write (K : Kernel) (w : World) (self : StlWriter.t)
    (shape : TopoDS_Shape) (path : string) : World :=
  {| w_fs := snd (Write K (at_Write w self) shape path
                    (StlWriter.ascii_mode self));
     w_trace := w_trace (at_Write w self)
                ++ [Write_called shape path (StlWriter.ascii_mode self)] |}.

(** The class [d] is [c] or one of the classes [c] derives from. *)
Inductive derives_from : exn_class → exn_class → Prop :=
  | derives_refl c : derives_from c c
  | derives_step c parent d :
      base_class c = Some parent → derives_from parent d → derives_from c d.

(** One of the STEP signatures occurs in the header. *)
Definition has_signature (header : bytes) : bool :=
  Py.bytes_in (b "ISO-10303-21;") header
  || Py.bytes_in (b "ISO-10303-28;") header.

(** The calls of the writer stage. *)
Definition writer_call (ev : event) : bool :=
  match ev with
  | StlAPI_Writer_created | SetASCIIMode_called _ | Write_called _ _ _ => true
  | _ => false
  end.

(** The service that does what the converter of [main.py] does: the same
    deflections, binary output. *)
Definition service_of (c : StepConverter.t) : ConversionService.t :=
  {| ConversionService.step_reader := StepReader.new;
     ConversionService.shape_mesher :=
       ShapeMesher.new (StepConverter.linear_deflection c)
                       (StepConverter.angular_deflection c);
     ConversionService.stl_writer := StlWriter.new false |}.

Definition succeeded {A} (r : result A) : bool :=
  match r with Ok _ => true | Raise _ => false end.

Definition returned {A} (r : result A) : option A :=
  match r with Ok a => Some a | Raise _ => None end.

(** The entries that a whole successful conversion adds to the log, in
    order: the calls to the operating system and on the reader, mesh and
    writer objects.  The two accessor calls on the shape, [IsNull()] and
    [ShapeType()], made between [OneShape] and the creation of the mesh
    object, are not logged and are not in this list. *)
Definition conversion_calls (self : ConversionService.t)
    (shape : TopoDS_Shape) (p out : string) : list event :=
  let m := mesh_object (ConversionService.shape_mesher self) shape in
  let ascii_mode := StlWriter.ascii_mode (ConversionService.stl_writer self) in
  [ os_path_exists_called p; os_path_getsize_called p;
    STEPControl_Reader_created; ReadFile_called p; TransferRoots_called p;
    OneShape_called p;
    BRepMesh_IncrementalMesh_created m; Perform_called m; IsDone_called m;
    StlAPI_Writer_created; SetASCIIMode_called ascii_mode;
    Write_called shape out ascii_mode;
    os_path_exists_called out; os_path_getsize_called out ].

(** [s.isascii()]: every character is below 128.  On such text the model
    of [lower] and [upper] is what Python computes. *)
Fixpoint isascii (s : string) : bool :=
  match s with
  | EmptyString => true
  | String c s' => (nat_of_ascii c <? 128)%nat && isascii s'
  end.

(** The configuration of an empty environment. *)
Definition default_config : AppConfig.t :=
  {| AppConfig.port := 5000;
     AppConfig.host := "0.0.0.0";
     AppConfig.environment := "development";
     AppConfig.cors_origins := ["http://localhost:3000"];
     AppConfig.max_file_size_bytes := 50 * 1024 * 1024;
     AppConfig.rate_limit_per_minute := 10;
     AppConfig.linear_deflection := 0.1;
     AppConfig.angular_deflection := 0.5;
     AppConfig.temp_dir := "/tmp/cad-files";
     AppConfig.log_level := "INFO" |}.

(** The character of a decimal digit. *)
Definition digit_char (d : Z) : ascii := ascii_of_nat (48 + Z.to_nat d).

(** The decimal text of [h] hundredths: the whole part, a point, the tens
    and the units of the remaining hundredths. *)
Definition decimal_text (h : Z) : string :=
  pretty (h / 100) +:+ "." +:+
  String (digit_char (h mod 100 / 10))
    (String (digit_char (h mod 100 mod 10)) EmptyString).

(** A file of 20000 bytes, about 0.019 of a megabyte. *)
Definition big_file : file := mk_file (replicate 20000 Byte.x00) io_ok.

Definition big_file_world : World :=
  {| w_fs := {[ "/tmp/big.step" := big_file ]}; w_trace := [] |}.

(** Two files of more than 512 bytes that share their first 512 bytes, all
    blanks: one goes on with a STEP signature, the other does not. *)
Definition late_signature_file : file :=
  mk_file (replicate 512 Byte.x20 ++ b "ISO-10303-21;HEADER;") io_ok.

Definition no_signature_file : file :=
  mk_file (replicate 512 Byte.x20 ++ b "solid cube facet normal 0 0 1") io_ok.

Definition late_signature_world : World :=
  {| w_fs := {[ "/tmp/in.step" := late_signature_file ]}; w_trace := [] |}.

Definition no_signature_world : World :=
  {| w_fs := {[ "/tmp/in.step" := no_signature_file ]}; w_trace := [] |}.

(** A kernel whose writer leaves the first bytes of the artifact on disk and
    then raises. *)
Definition failing_writer_kernel : Kernel :=
  {| ReadFile := ReadFile Samples.cube_kernel;
     TransferRoots := TransferRoots Samples.cube_kernel;
     OneShape := OneShape Samples.cube_kernel;
     IncrementalMesh := IncrementalMesh Samples.cube_kernel;
     Perform := Perform Samples.cube_kernel;
     IsDone := IsDone Samples.cube_kernel;
     Write := fun w _ path _ =>
       (Raise (mk_exn RuntimeError "No space left on device"),
        <[path := mk_file (take 80 Samples.cube_stl) io_ok]> (w_fs w)) |}.

(* ===================================================================== *)
(** * Properties *)
(* ===================================================================== *)

(** ** Exceptions *)

Lemma issubclass_Exception (c : exn_class) : issubclass c Exception = true.
Proof. destruct c; reflexivity. Qed.

Lemma isinstance_own_class (cls : exn_class) (msg : string) :
  isinstance (mk_exn cls msg) cls = true.
Proof. destruct cls; reflexivity. Qed.

(** Unfolds the monadic plumbing of a computation applied to a world. *)
Ltac run :=
  cbv beta iota zeta delta
    [mbind M_bind mret M_ret try_except raise reraise emit kernel_call
     kernel_write os_path_exists os_path_getsize open_rb_read].

(** ** The model at work *)

Example path_suffix_samples :
  Py.path_suffix "uploads/Bracket.STEP" = ".STEP"
  ∧ Py.path_suffix "archive.tar.gz" = ".gz"
  ∧ Py.path_suffix ".bashrc" = ""
  ∧ Py.path_suffix "cube." = ""
  ∧ Py.path_suffix "cube.step/" = ".step".
Proof. repeat split; reflexivity. Qed.

Example format_2f_samples :
  Py.format_2f <$> Py.truediv_MiB (60 * 1024 * 1024) = Some "60.00"
  ∧ Py.format_2f <$> Py.truediv_MiB 131072 = Some "0.12"
  ∧ Py.format_2f <$> Py.truediv_MiB 1572864 = Some "1.50"
  ∧ Py.format_2f <$> Py.truediv_MiB (-1) = Some "-0.00"
  ∧ Py.truediv_MiB (2 ^ 1044) = None.
Proof. repeat split; vm_compute; reflexivity. Qed.

Example validate_file_accepts_upload :
  fst (FileValidator.validate_file Samples.listing Samples.validator
         "/tmp/in.step" "cube.STEP" Samples.upload_world)
  = Ok (".step", 60).
Proof. vm_compute. reflexivity. Qed.

Example convert_cube :
  fst (ConversionService.convert Samples.cube_kernel Samples.service
         "/tmp/in.step" "/tmp/out.stl" Samples.upload_world)
  = Ok "/tmp/out.stl"
  ∧ (length ∘ f_data <$>
       w_fs (snd (ConversionService.convert Samples.cube_kernel
                    Samples.service "/tmp/in.step" "/tmp/out.stl"
                    Samples.upload_world)) !! "/tmp/out.stl")
    = Some 684%nat.
Proof. split; vm_compute; reflexivity. Qed.

Example convert_unfinished_mesh :
  fst (ConversionService.convert Samples.unfinished_mesh_kernel Samples.service
         "/tmp/in.step" "/tmp/out.stl" Samples.upload_world)
  = Raise (mk_exn ConversionError
             "Conversion failed: Meshing operation failed").
Proof. vm_compute. reflexivity. Qed.

Example convert_silent_writer :
  fst (ConversionService.convert Samples.silent_kernel Samples.service
         "/tmp/in.step" "/tmp/out.stl" Samples.upload_world)
  = Raise (mk_exn ConversionError
             "Conversion failed: STL file was not created").
Proof. vm_compute. reflexivity. Qed.

Example from_env_defaults :
  AppConfig.linear_deflection <$>
    match Samples.from_env ∅ with Ok cfg => Some cfg | Raise _ => None end
  = Some 0.1%float.
Proof. vm_compute. reflexivity. Qed.

(** ** Substrings of byte strings *)

Lemma byte_eqb_eq (x y : Byte.byte) : Py.byte_eqb x y = true ↔ x = y.
Proof.
  unfold Py.byte_eqb. split; [apply Byte.byte_dec_bl | apply Byte.byte_dec_lb].
Qed.

Lemma starts_with_spec (needle hay : bytes) :
  Py.starts_with needle hay = true ↔ ∃ after, hay = needle ++ after.
Proof.
  revert hay. induction needle as [|x needle IH]; intros hay; simpl.
  - split; [intros _; by exists hay | done].
  - destruct hay as [|y hay].
    + split; [done | intros [after H]; discriminate H].
    + rewrite andb_true_iff, byte_eqb_eq, IH. split.
      * intros [-> [after ->]]. by exists after.
      * intros [after H]. injection H as -> ->. split; [done | by exists after].
Qed.

Lemma bytes_in_spec (needle hay : bytes) :
  Py.bytes_in needle hay = true ↔ contains needle hay.
Proof.
  unfold contains. induction hay as [|y hay IH].
  - simpl. rewrite orb_false_r, starts_with_spec. split.
    + intros [after H]. by exists [], after.
    + intros [before [after H]]. symmetry in H.
      apply app_eq_nil in H as [-> H]. apply app_eq_nil in H as [-> ->].
      by exists [].
  - cbn [Py.bytes_in]. rewrite orb_true_iff, starts_with_spec, IH. split.
    + intros [[after H] | [before [after H]]].
      * by exists [], after.
      * exists (y :: before), after. by rewrite H.
    + intros [[|z before] [after H]].
      * left. by exists after.
      * right. injection H as -> ->. by exists before, after.
Qed.

(** ** Division by [1024 * 1024] and the two-decimal format *)

Lemma round_half_even_close (a d : Z) :
  0 < d → 2 * Z.abs (Py.round_half_even a d * d - a) ≤ d.
Proof.
  intros Hd. unfold Py.round_half_even.
  pose proof (Z.div_mod a d ltac:(lia)) as Hdiv.
  pose proof (Z.mod_pos_bound a d Hd) as Hmod.
  destruct (Z.ltb_spec (2 * (a mod d)) d); [nia|].
  destruct (Z.ltb_spec d (2 * (a mod d))); [nia|].
  destruct (Z.even (a / d)); nia.
Qed.

Lemma round_half_even_upper (a d : Z) :
  0 < d → Py.round_half_even a d ≤ a / d + 1.
Proof.
  intros Hd. unfold Py.round_half_even.
  repeat match goal with |- context [if ?c then _ else _] => destruct c end; lia.
Qed.

Lemma round_53_bits_small (n : Z) : 0 ≤ n < 2 ^ 53 → Py.round_53_bits n = n.
Proof.
  intros [H0 H53]. unfold Py.round_53_bits.
  destruct (Z.leb_spec (Z.log2 n - 52) 0) as [|Hk]; [done|].
  exfalso. destruct (Z.eq_dec n 0) as [->|Hn]; [simpl in Hk; lia|].
  assert (Z.log2 n < 53) by (apply Z.log2_lt_pow2; lia). lia.
Qed.

Lemma round_53_bits_bound (n : Z) (p : Z) :
  53 ≤ p → 0 ≤ n < 2 ^ p → Py.round_53_bits n ≤ 2 ^ p.
Proof.
  intros Hp [H0 Hn]. unfold Py.round_53_bits.
  destruct (Z.leb_spec (Z.log2 n - 52) 0) as [|Hk]; [lia|].
  set (k := Z.log2 n - 52) in *.
  assert (Hpos : 0 < n).
  { destruct (Z.eq_dec n 0) as [->|]; [simpl in k; lia | lia]. }
  assert (Hlog : Z.log2 n < p) by (apply Z.log2_lt_pow2; lia).
  assert (Hk2 : 0 < 2 ^ k) by (apply Z.pow_pos_nonneg; lia).
  pose proof (Z.log2_spec n Hpos) as [_ Hup].
  replace (Z.succ (Z.log2 n)) with (53 + k) in Hup by lia.
  rewrite Z.pow_add_r in Hup by lia.
  assert (Hq : n / 2 ^ k < 2 ^ 53) by (apply Z.div_lt_upper_bound; lia).
  pose proof (round_half_even_upper n (2 ^ k) Hk2) as Hr.
  assert (Hle : Py.round_half_even n (2 ^ k) * 2 ^ k ≤ 2 ^ 53 * 2 ^ k) by nia.
  rewrite <- Z.pow_add_r in Hle by lia.
  etransitivity; [exact Hle|]. apply Z.pow_le_mono_r; lia.
Qed.

Lemma truediv_MiB_in_range (n : Z) :
  Z.abs n < 2 ^ 1043 → Py.truediv_MiB n = Some (MiB_quotient n).
Proof.
  intros Hn. unfold Py.truediv_MiB, MiB_quotient.
  pose proof (round_53_bits_bound (Z.abs n) 1043 ltac:(lia) ltac:(lia)) as Hb.
  assert (Hlt : 2 ^ 1043 < 2 ^ 1044) by (apply Z.pow_lt_mono_r; lia).
  destruct (Z.leb_spec (2 ^ 1044) (Py.round_53_bits (Z.abs n))); [lia | done].
Qed.

Lemma MiB_quotient_exact (n : Z) : Z.abs n < 2 ^ 53 → MiB_quotient n = n.
Proof.
  intros Hn. unfold MiB_quotient.
  rewrite round_53_bits_small by lia. lia.
Qed.

Lemma hundredths_close (num : Z) :
  2 * Z.abs (Py.hundredths num * Py.MiB - 100 * Z.abs num) ≤ Py.MiB.
Proof.
  unfold Py.hundredths.
  replace (100 * Z.abs num) with (Z.abs num * 100) by lia.
  apply round_half_even_close. reflexivity.
Qed.

(** ** FileValidator *)

Section ValidatorProperties.

Variable allowed_listing : string.
Variable self : FileValidator.t.

(** C3.  A file name whose lower-cased suffix is outside the allowed set makes
    [validate_file] raise [InvalidFileTypeError] in every world, whatever
    the file holds and however large it is; the world comes back as it was,
    so no call asked for the size or opened the file. *)
Theorem validate_file_rejects_extension
    (w : World) (file_path filename : string) :
  Py.lower (Py.path_suffix filename) ∉ ALLOWED_EXTENSIONS →
  ∃ msg,
    FileValidator.validate_file allowed_listing self file_path filename w
    = (Raise (mk_exn InvalidFileTypeError msg), w).
Proof.
  intros Hext.
  unfold FileValidator.validate_file, FileValidator.validate_file_extension.
  run. rewrite bool_decide_eq_true_2 by exact Hext. eauto.
Qed.

(** The content check on a file that opens and reads. *)
Lemma validate_magic_number_readable (w : World) (file_path : string) (f : file) :
  w_fs w !! file_path = Some f →
  f_io f = io_ok →
  let header := take 512 (f_data f) in
  let w' := log_event (file_read_called file_path 512)
              (log_event (open_rb_called file_path) w) in
  FileValidator.validate_magic_number self file_path w
  = if Py.bytes_in (b "ISO-10303-21;") header
       || Py.bytes_in (b "ISO-10303-28;") header
    then (Ok tt, w')
    else (Raise (mk_exn InvalidFileTypeError
                   ("File content does not match STEP format. " +:+
                    "Please upload a valid STEP/IGES file.")), w').
Proof.
  intros Hf Hio. unfold FileValidator.validate_magic_number. run.
  rewrite Hf, Hio. cbn [existsb STEP_MAGIC_NUMBERS]. rewrite orb_false_r.
  destruct (Py.bytes_in _ _ || Py.bytes_in _ _); reflexivity.
Qed.

(** An I/O error of the open or of the read is caught and re-raised. *)
Lemma magic_number_io_error (w : World) (file_path : string) (e : exn) (w1 : World) :
  open_rb_read file_path 512 w = (Raise e, w1) →
  FileValidator.validate_magic_number self file_path w
  = (Raise (mk_exn InvalidFileTypeError
              ("Cannot read file for validation: " +:+ str e)), w1).
Proof.
  intros H. unfold FileValidator.validate_magic_number, try_except.
  unfold mbind at 1. unfold M_bind. rewrite H.
  assert (Hcls : isinstance e IOError = true).
  { revert H. unfold open_rb_read.
    destruct (w_fs w !! file_path) as [f0|]; [destruct (f_io f0)|];
      intros H; inversion H; reflexivity. }
  rewrite Hcls. reflexivity.
Qed.

(** C10.  When opening the file or reading its first 512 bytes raises an I/O
    error [e], [validate_magic_number] raises [InvalidFileTypeError] with the
    text "Cannot read file for validation: " followed by [str e]; and so
    does [validate_file] once the extension and the size have passed. *)
Theorem validate_magic_number_wraps_io_error
    (w : World) (file_path : string) (e : exn) (w1 : World) :
  open_rb_read file_path 512 w = (Raise e, w1) →
  FileValidator.validate_magic_number self file_path w
  = (Raise (mk_exn InvalidFileTypeError
              ("Cannot read file for validation: " +:+ str e)), w1)
  ∧ ∀ filename f,
      Py.lower (Py.path_suffix filename) ∈ ALLOWED_EXTENSIONS →
      w_fs w !! file_path = Some f →
      Z.of_nat (length (f_data f)) ≤ FileValidator.max_file_size_bytes self →
      ∃ e' w',
        open_rb_read file_path 512
          (log_event (os_path_getsize_called file_path) w) = (Raise e', w')
        ∧ FileValidator.validate_file allowed_listing self file_path filename w
          = (Raise (mk_exn InvalidFileTypeError
                      ("Cannot read file for validation: " +:+ str e')), w').
Proof.
  intros Hopen.
  split; [by apply magic_number_io_error|].
  intros filename f Hext Hf Hsize.
  assert (Hfail : ∃ e' w',
            open_rb_read file_path 512
              (log_event (os_path_getsize_called file_path) w) = (Raise e', w')).
  { revert Hopen. unfold open_rb_read. cbn [w_fs log_event]. rewrite Hf.
    destruct (f_io f); intros H; inversion H; eauto. }
  destruct Hfail as (e' & w' & Hfail). exists e', w'. split; [exact Hfail|].
  unfold FileValidator.validate_file, FileValidator.validate_file_extension,
    FileValidator.validate_file_size.
  rewrite bool_decide_eq_false_2 by (intros H; by apply H).
  unfold mbind at 1 2. unfold M_bind at 1 2. unfold mret at 1. unfold M_ret at 1.
  unfold mbind at 1. unfold M_bind at 1. unfold os_path_getsize at 1.
  rewrite Hf. rewrite bool_decide_eq_false_2 by lia.
  unfold mret at 1. unfold M_ret at 1.
  unfold mbind at 1. unfold M_bind at 1.
  rewrite (magic_number_io_error _ _ _ _ Hfail). reflexivity.
Qed.

(** C4.  For a file present in the world, within the size cap and under an
    allowed extension: when neither signature occurs in its first 512 bytes
    [validate_file] raises [InvalidFileTypeError]; when the file reads and
    one of the signatures occurs there, [validate_file] returns the
    lower-cased extension and the size in bytes. *)
Theorem validate_file_content_signature
    (w : World) (file_path filename : string) (f : file) :
  let file_ext := Py.lower (Py.path_suffix filename) in
  let file_size := Z.of_nat (length (f_data f)) in
  let header := take 512 (f_data f) in
  file_ext ∈ ALLOWED_EXTENSIONS →
  w_fs w !! file_path = Some f →
  file_size ≤ FileValidator.max_file_size_bytes self →
  (¬ contains (b "ISO-10303-21;") header →
   ¬ contains (b "ISO-10303-28;") header →
   ∃ msg w',
     FileValidator.validate_file allowed_listing self file_path filename w
     = (Raise (mk_exn InvalidFileTypeError msg), w'))
  ∧ (f_io f = io_ok →
     contains (b "ISO-10303-21;") header ∨ contains (b "ISO-10303-28;") header →
     ∃ w',
       FileValidator.validate_file allowed_listing self file_path filename w
       = (Ok (file_ext, file_size), w')).
Proof.
  intros file_ext file_size header Hext Hf Hsize.
  assert (Hrun : ∀ r w1,
            FileValidator.validate_magic_number self file_path
              (log_event (os_path_getsize_called file_path) w) = (r, w1) →
            FileValidator.validate_file allowed_listing self file_path filename w
            = match r with
              | Ok _ => (Ok (file_ext, file_size),
                         log_event (os_path_getsize_called file_path) w1)
              | Raise e => (Raise e, w1)
              end).
  { intros r w1 Hmagic.
    assert (Hfs : w_fs w1 !! file_path = Some f).
    { revert Hmagic. unfold FileValidator.validate_magic_number. run.
      cbn [w_fs log_event]. rewrite Hf.
      destruct (f_io f); cbn [w_fs log_event];
        repeat match goal with
               | |- context [if ?c then _ else _] => destruct c
               end;
        intros H; inversion H; subst; exact Hf. }
    unfold FileValidator.validate_file, FileValidator.validate_file_extension,
      FileValidator.validate_file_size.
    fold file_ext.
    rewrite bool_decide_eq_false_2 by (intros H; by apply H).
    unfold mbind at 1 2. unfold M_bind at 1 2. unfold mret at 1. unfold M_ret at 1.
    unfold mbind at 1. unfold M_bind at 1. unfold os_path_getsize at 1.
    rewrite Hf. fold file_size. rewrite bool_decide_eq_false_2 by lia.
    unfold mret at 1. unfold M_ret at 1.
    unfold mbind at 1. unfold M_bind at 1. rewrite Hmagic.
    destruct r as [[]|e]; [|reflexivity].
    unfold mbind, M_bind, os_path_getsize, mret, M_ret. rewrite Hfs.
    reflexivity. }
  split.
  - intros H21 H28.
    destruct (f_io f) eqn:Hio.
    + pose proof (validate_magic_number_readable
                    (log_event (os_path_getsize_called file_path) w)
                    file_path f Hf Hio) as Hm.
      cbv zeta in Hm. fold header in Hm.
      rewrite <- bytes_in_spec in H21, H28.
      apply not_true_is_false in H21, H28. rewrite H21, H28 in Hm.
      cbn [orb] in Hm. rewrite (Hrun _ _ Hm). eauto.
    + pose proof (magic_number_io_error
                    (log_event (os_path_getsize_called file_path) w) file_path
                    (mk_exn OSError
                       (errno_text "[Errno 13] Permission denied" file_path))
                    (log_event (open_rb_called file_path)
                       (log_event (os_path_getsize_called file_path) w)))
        as Hm.
      lapply Hm; [clear Hm; intros Hm|].
      2:{ unfold open_rb_read. cbn [w_fs log_event]. by rewrite Hf, Hio. }
      rewrite (Hrun _ _ Hm). eauto.
    + pose proof (magic_number_io_error
                    (log_event (os_path_getsize_called file_path) w) file_path
                    (mk_exn OSError "[Errno 5] Input/output error")
                    (log_event (file_read_called file_path 512)
                       (log_event (open_rb_called file_path)
                          (log_event (os_path_getsize_called file_path) w))))
        as Hm.
      lapply Hm; [clear Hm; intros Hm|].
      2:{ unfold open_rb_read. cbn [w_fs log_event]. by rewrite Hf, Hio. }
      rewrite (Hrun _ _ Hm). eauto.
  - intros Hio Hsig.
    pose proof (validate_magic_number_readable
                  (log_event (os_path_getsize_called file_path) w)
                  file_path f Hf Hio) as Hm.
    cbv zeta in Hm. fold header in Hm.
    assert (Hor : Py.bytes_in (b "ISO-10303-21;") header
                  || Py.bytes_in (b "ISO-10303-28;") header = true).
    { apply orb_true_iff. rewrite !bytes_in_spec. exact Hsig. }
    rewrite Hor in Hm. rewrite (Hrun _ _ Hm). eauto.
Qed.

Example decimal_text_samples :
  decimal_text 6000 = "60.00"
  ∧ decimal_text 5000 = "50.00"
  ∧ decimal_text 150 = "1.50"
  ∧ decimal_text 12 = "0.12"
  ∧ decimal_text 7 = "0.07"
  ∧ decimal_text 0 = "0.00".
Proof. repeat split; vm_compute; reflexivity. Qed.

Lemma two_digits_chars (d : Z) :
  0 ≤ d < 100 →
  Py.two_digits d
  = String (digit_char (d / 10)) (String (digit_char (d mod 10)) EmptyString).
Proof.
  intros Hd. rewrite <- (Z2Nat.id d) by lia.
  assert (Hn : (Z.to_nat d < 100)%nat) by lia.
  generalize dependent (Z.to_nat d). clear. intros n Hn.
  do 100 (destruct n as [|n]; [vm_compute; reflexivity|]). lia.
Qed.

Lemma hundredths_nonneg (num : Z) : 0 ≤ Py.hundredths num.
Proof.
  unfold Py.hundredths, Py.round_half_even.
  assert (0 ≤ Z.abs num * 100 / Py.MiB)
    by (apply Z.div_pos; [lia | reflexivity]).
  repeat match goal with |- context [if ?c then _ else _] => destruct c end;
    lia.
Qed.

(** The text of a non-negative float with two decimals, digit by digit. *)
Lemma format_2f_decimal_text (num : Z) :
  0 ≤ num → Py.format_2f num = decimal_text (Py.hundredths num).
Proof.
  intros Hnum. unfold Py.format_2f, decimal_text.
  destruct (Z.ltb_spec num 0); [lia|].
  rewrite two_digits_chars by (apply Z.mod_pos_bound; lia).
  reflexivity.
Qed.

(** C5.  For a file present in the world whose length exceeds the cap,
    [validate_file_size] raises [FileSizeExceededError] with the text
    "File size {actual}MB exceeds maximum allowed size {limit}MB", both
    numbers being the byte counts divided by [1024 * 1024] as floats and
    printed with two decimals.  Below [2^53] bytes the division is exact
    and each printed number is, digit for digit, the decimal text of a count
    of hundredths that is within half a hundredth of the byte count over
    [1024 * 1024]; 60 MB against a cap of 50 MB prints "60.00MB" and
    "50.00MB".  A file whose length equals the cap passes. *)
Theorem validate_file_size_limit (w : World) (file_path : string) (f : file) :
  let file_size := Z.of_nat (length (f_data f)) in
  let limit := FileValidator.max_file_size_bytes self in
  let w' := log_event (os_path_getsize_called file_path) w in
  w_fs w !! file_path = Some f →
  (limit < file_size → Z.abs limit < 2 ^ 1043 → file_size < 2 ^ 1043 →
   FileValidator.validate_file_size self file_path w
   = (Raise (mk_exn FileSizeExceededError
               ("File size " +:+ Py.format_2f (MiB_quotient file_size) +:+
                "MB exceeds maximum allowed size " +:+
                Py.format_2f (MiB_quotient limit) +:+ "MB")), w'))
  ∧ (∀ n, Z.abs n < 2 ^ 53 →
       MiB_quotient n = n ∧
       2 * Z.abs (Py.hundredths n * (1024 * 1024) - 100 * Z.abs n)
       ≤ 1024 * 1024)
  ∧ (file_size = limit →
     FileValidator.validate_file_size self file_path w = (Ok tt, w'))
  ∧ (limit < file_size → 0 ≤ limit → file_size < 2 ^ 53 →
     ∃ actual_hundredths limit_hundredths,
       FileValidator.validate_file_size self file_path w
       = (Raise (mk_exn FileSizeExceededError
                   ("File size " +:+ decimal_text actual_hundredths +:+
                    "MB exceeds maximum allowed size " +:+
                    decimal_text limit_hundredths +:+ "MB")), w')
       ∧ 0 ≤ actual_hundredths
       ∧ 0 ≤ limit_hundredths
       ∧ 2 * Z.abs (actual_hundredths * (1024 * 1024) - 100 * file_size)
         ≤ 1024 * 1024
       ∧ 2 * Z.abs (limit_hundredths * (1024 * 1024) - 100 * limit)
         ≤ 1024 * 1024)
  ∧ (file_size = 60 * 1024 * 1024 → limit = 50 * 1024 * 1024 →
     FileValidator.validate_file_size self file_path w
     = (Raise (mk_exn FileSizeExceededError
                 "File size 60.00MB exceeds maximum allowed size 50.00MB"),
        w')).
Proof.
  intros file_size limit w' Hf.
  assert (Hraise : limit < file_size → Z.abs limit < 2 ^ 1043 →
            file_size < 2 ^ 1043 →
            FileValidator.validate_file_size self file_path w
            = (Raise (mk_exn FileSizeExceededError
                        ("File size " +:+
                         Py.format_2f (MiB_quotient file_size) +:+
                         "MB exceeds maximum allowed size " +:+
                         Py.format_2f (MiB_quotient limit) +:+ "MB")), w')).
  { intros Hlt Hlimit Hsize. unfold FileValidator.validate_file_size. run.
    rewrite Hf. fold file_size limit.
    rewrite bool_decide_eq_true_2 by lia.
    rewrite !truediv_MiB_in_range by lia. reflexivity. }
  assert (Hp : 2 ^ 53 < 2 ^ 1043) by (apply Z.pow_lt_mono_r; lia).
  split; [exact Hraise|].
  split.
  { intros n Hn. split; [by apply MiB_quotient_exact|].
    apply (hundredths_close n). }
  split.
  { intros Heq. unfold FileValidator.validate_file_size. run.
    rewrite Hf. fold file_size limit.
    rewrite bool_decide_eq_false_2 by lia. reflexivity. }
  split.
  - intros Hlt Hlimit Hsize.
    exists (Py.hundredths file_size), (Py.hundredths limit).
    rewrite Hraise by lia.
    rewrite !MiB_quotient_exact by lia.
    rewrite !format_2f_decimal_text by lia.
    split; [reflexivity|].
    split; [apply hundredths_nonneg|]. split; [apply hundredths_nonneg|].
    pose proof (hundredths_close file_size) as H1.
    pose proof (hundredths_close limit) as H2.
    unfold Py.MiB in H1, H2.
    rewrite (Z.abs_eq file_size) in H1 by lia.
    rewrite (Z.abs_eq limit) in H2 by lia. done.
  - intros Hsize Hlimit. rewrite Hraise by lia.
    rewrite Hsize, Hlimit. reflexivity.
Qed.

(** The example of the specification: 60 MB against a cap of 50 MB. *)
Lemma sixty_against_fifty (w : World) (file_path : string) (f : file) :
  w_fs w !! file_path = Some f →
  length (f_data f) = (60 * 1024 * 1024)%nat →
  FileValidator.max_file_size_bytes self = 50 * 1024 * 1024 →
  fst (FileValidator.validate_file_size self file_path w)
  = Raise (mk_exn FileSizeExceededError
             "File size 60.00MB exceeds maximum allowed size 50.00MB").
Proof.
  intros Hf Hlen Hmax. unfold FileValidator.validate_file_size. run.
  rewrite Hf, Hlen, Hmax.
  replace (Z.of_nat (60 * 1024 * 1024)) with 62914560 by lia.
  reflexivity.
Qed.

End ValidatorProperties.


(** ** AppConfig *)

Section ConfigProperties.

Variable py_int : string → option Z.
Variable py_float : string → option float.
Variable py_float_str : float → string.

(** C8.  The bounds 0.001 and 1.0 for the linear deflection and 0.1 and 1.0
    for the angular deflection are inside the accepted ranges, and 0.0009 and
    1.1 are outside the linear one.  When both deflections are in range and
    the integer settings parse, [from_env] returns a configuration holding
    them.  When the linear deflection, or the angular deflection, is a float
    outside its range, [from_env] raises [ValueError]. *)
Theorem from_env_deflection_ranges :
  (AppConfig.between 0.001 0.001 1.0 = true
   ∧ AppConfig.between 0.001 1.0 1.0 = true
   ∧ AppConfig.between 0.1 0.1 1.0 = true
   ∧ AppConfig.between 0.1 1.0 1.0 = true
   ∧ AppConfig.between 0.001 0.0009 1.0 = false
   ∧ AppConfig.between 0.001 1.1 1.0 = false)
  ∧ (∀ env lin ang mb port rate,
       py_float (AppConfig.getenv env "LINEAR_DEFLECTION" "0.1") = Some lin →
       py_float (AppConfig.getenv env "ANGULAR_DEFLECTION" "0.5") = Some ang →
       py_int (AppConfig.getenv env "MAX_FILE_SIZE_MB" "50") = Some mb →
       py_int (AppConfig.getenv env "PORT" "5000") = Some port →
       py_int (AppConfig.getenv env "RATE_LIMIT_PER_MINUTE" "10") = Some rate →
       PrimFloat.leb 0.001 lin = true → PrimFloat.leb lin 1.0 = true →
       PrimFloat.leb 0.1 ang = true → PrimFloat.leb ang 1.0 = true →
       ∃ cfg,
         AppConfig.from_env py_int py_float py_float_str env = Ok cfg
         ∧ AppConfig.linear_deflection cfg = lin
         ∧ AppConfig.angular_deflection cfg = ang)
  ∧ (∀ env lin,
       py_float (AppConfig.getenv env "LINEAR_DEFLECTION" "0.1") = Some lin →
       PrimFloat.leb 0.001 lin = false ∨ PrimFloat.leb lin 1.0 = false →
       ∃ msg,
         AppConfig.from_env py_int py_float py_float_str env
         = Raise (mk_exn ValueError msg))
  ∧ (∀ env ang,
       py_float (AppConfig.getenv env "ANGULAR_DEFLECTION" "0.5") = Some ang →
       PrimFloat.leb 0.1 ang = false ∨ PrimFloat.leb ang 1.0 = false →
       ∃ msg,
         AppConfig.from_env py_int py_float py_float_str env
         = Raise (mk_exn ValueError msg)).
Proof.
  split; [repeat split; reflexivity|]. repeat split.
  - intros env lin ang mb port rate Hlin Hang Hmb Hport Hrate L1 L2 A1 A2.
    unfold AppConfig.from_env, AppConfig.int, AppConfig.float_of_str,
      AppConfig.between.
    rewrite Hmb, Hlin, Hang. cbn [mbind result_bind].
    rewrite L1, L2, A1, A2. cbn [andb negb].
    rewrite Hport, Hrate. cbn [mbind result_bind mret result_ret].
    eexists. split; [reflexivity|]. split; reflexivity.
  - intros env lin Hlin Hout.
    unfold AppConfig.from_env, AppConfig.int, AppConfig.float_of_str,
      AppConfig.between.
    destruct (py_int (AppConfig.getenv env "MAX_FILE_SIZE_MB" "50"));
      cbn [mbind result_bind]; [|eauto].
    rewrite Hlin. cbn [mbind result_bind].
    destruct (py_float (AppConfig.getenv env "ANGULAR_DEFLECTION" "0.5"));
      cbn [mbind result_bind]; [|eauto].
    assert (Hb : PrimFloat.leb 0.001 lin && PrimFloat.leb lin 1.0 = false).
    { apply andb_false_iff. exact Hout. }
    rewrite Hb. cbn [negb]. eauto.
  - intros env ang Hang Hout.
    unfold AppConfig.from_env, AppConfig.int, AppConfig.float_of_str,
      AppConfig.between.
    destruct (py_int (AppConfig.getenv env "MAX_FILE_SIZE_MB" "50"));
      cbn [mbind result_bind]; [|eauto].
    destruct (py_float (AppConfig.getenv env "LINEAR_DEFLECTION" "0.1"));
      cbn [mbind result_bind]; [|eauto].
    rewrite Hang. cbn [mbind result_bind].
    destruct (negb _); [eauto|].
    assert (Hb : PrimFloat.leb 0.1 ang && PrimFloat.leb ang 1.0 = false).
    { apply andb_false_iff. exact Hout. }
    rewrite Hb. cbn [negb]. eauto.
Qed.

End ConfigProperties.

(** ** StepReader *)

Ltac case_step :=
  match goal with
  | |- context [match ?x with _ => _ end] => destruct x eqn:?
  end.

Lemma isinstance_leaf (e : exn) (c : exn_class) :
  c = StepReadError ∨ c = MeshingError ∨ c = StlWriteError →
  isinstance e c = true → exn_cls e = c.
Proof.
  destruct e as [cls msg].
  intros [-> | [-> | ->]]; destruct cls; vm_compute; intros H;
    first [reflexivity | discriminate H].
Qed.

Lemma w_fs_log_event (ev : event) (w : World) :
  w_fs (log_event ev w) = w_fs w.
Proof. reflexivity. Qed.

(** Settles the pair of [except] clauses of a stage once its body has
    raised: an exception of the stage's own class passes, any other is
    wrapped. *)
Ltac handler :=
  unfold isinstance; rewrite ?issubclass_Exception;
  repeat match goal with
         | |- context [issubclass ?c ?d] => destruct (issubclass c d)
         end;
  reflexivity.

(** The equation of [read]: one case per exit of the method. *)
Lemma read_cases (K : Kernel) (self : StepReader.t) (p : string) (w : World) :
  StepReader.read K self p w
  = match w_fs w !! p with
    | None =>
        (Raise (mk_exn StepReadError ("STEP file does not exist: " +:+ p)),
         log_event (os_path_exists_called p) w)
    | Some _ =>
        match ReadFile K (at_ReadFile w p) p with
        | Raise e =>
            (Raise (if isinstance e StepReadError then e
                    else mk_exn StepReadError
                           ("Error reading STEP file: " +:+ str e)),
             at_TransferRoots w p)
        | Ok status =>
            if bool_decide (status ≠ IFSelect_RetDone) then
              (Raise (mk_exn StepReadError
                        ("Failed to read STEP file, status code: " +:+
                         pretty (status_code status))),
               at_TransferRoots w p)
            else
              match TransferRoots K (at_TransferRoots w p) p with
              | Raise e =>
                  (Raise (if isinstance e StepReadError then e
                          else mk_exn StepReadError
                                 ("Error reading STEP file: " +:+ str e)),
                   at_OneShape w p)
              | Ok _ =>
                  match OneShape K (at_OneShape w p) p with
                  | Raise e =>
                      (Raise (if isinstance e StepReadError then e
                              else mk_exn StepReadError
                                     ("Error reading STEP file: " +:+ str e)),
                       log_event (OneShape_called p) (at_OneShape w p))
                  | Ok shape =>
                      if IsNull shape then
                        (Raise (mk_exn StepReadError
                                  "STEP file contains no valid shapes"),
                         log_event (OneShape_called p) (at_OneShape w p))
                      else
                        (Ok shape,
                         log_event (OneShape_called p) (at_OneShape w p))
                  end
              end
        end
    end.
Proof.
  unfold StepReader.read, at_OneShape, at_TransferRoots, at_ReadFile. run.
  destruct (w_fs w !! p) as [f|] eqn:Hf.
  - rewrite bool_decide_eq_true_2 by eauto. cbn [negb]. cbv beta iota.
    rewrite !w_fs_log_event, Hf.
    match goal with
    | |- context [ReadFile K ?w0 p] => destruct (ReadFile K w0 p) as [st|e]
    end; [|handler].
    destruct (bool_decide (st ≠ IFSelect_RetDone)); [reflexivity|].
    match goal with
    | |- context [TransferRoots K ?w0 p] =>
        destruct (TransferRoots K w0 p) as [n|e]
    end; [|handler].
    match goal with
    | |- context [OneShape K ?w0 p] => destruct (OneShape K w0 p) as [s|e]
    end; [|handler].
    destruct (IsNull s); reflexivity.
  - rewrite bool_decide_eq_false_2 by (intros [? ?]; discriminate).
    reflexivity.
Qed.

Lemma read_raises_StepReadError
    (K : Kernel) (self : StepReader.t) (p : string) (w : World) (e : exn) :
  fst (StepReader.read K self p w) = Raise e → exn_cls e = StepReadError.
Proof.
  rewrite read_cases.
  repeat case_step; cbn [fst]; intros H; inversion H; subst;
    first [reflexivity | apply isinstance_leaf; [by left | assumption]].
Qed.

Lemma read_returns_shape
    (K : Kernel) (self : StepReader.t) (p : string) (w : World)
    (s : TopoDS_Shape) :
  fst (StepReader.read K self p w) = Ok s →
  IsNull s = false
  ∧ is_Some (w_fs w !! p)
  ∧ ReadFile K (at_ReadFile w p) p = Ok IFSelect_RetDone
  ∧ (∃ n, TransferRoots K (at_TransferRoots w p) p = Ok n)
  ∧ OneShape K (at_OneShape w p) p = Ok s.
Proof.
  rewrite read_cases.
  destruct (w_fs w !! p); [|discriminate].
  destruct (ReadFile K _ p) as [st|]; [|discriminate].
  case_bool_decide as Hst; [discriminate|].
  destruct (TransferRoots K _ p) as [n|]; [|discriminate].
  destruct (OneShape K _ p) as [s'|]; [|discriminate].
  destruct (IsNull s') eqn:Hnull; [discriminate|].
  cbn [fst]. intros H. inversion H; subst.
  repeat split; eauto.
Qed.

Lemma read_leaves_files
    (K : Kernel) (self : StepReader.t) (p : string) (w : World) :
  w_fs (snd (StepReader.read K self p w)) = w_fs w.
Proof. rewrite read_cases. repeat case_step; reflexivity. Qed.

Lemma read_trace
    (K : Kernel) (self : StepReader.t) (p : string) (w : World) :
  ∃ calls,
    w_trace (snd (StepReader.read K self p w)) = w_trace w ++ calls
    ∧ Forall (λ ev, mesher_or_writer_call ev = false) calls.
Proof.
  rewrite read_cases. unfold at_OneShape, at_TransferRoots, at_ReadFile.
  repeat case_step; cbn [snd log_event w_trace]; rewrite <- ?app_assoc;
    eexists; (split; [reflexivity|]); repeat constructor.
Qed.

(** C6.  [StepReader.read] raises no exception other than [StepReadError];
    a shape that it returns is not null; and it raises exactly when the file
    is missing, the status of [ReadFile] is not [IFSelect_RetDone], the shape
    is null, or a kernel call raised. *)
Theorem StepReader_read_contract
    (K : Kernel) (self : StepReader.t) (p : string) (w : World) :
  (∀ e, fst (StepReader.read K self p w) = Raise e →
        exn_cls e = StepReadError)
  ∧ (∀ s, fst (StepReader.read K self p w) = Ok s → IsNull s = false)
  ∧ ((∃ e, fst (StepReader.read K self p w) = Raise e) ↔ read_failure K w p).
Proof.
  split; [apply read_raises_StepReadError|].
  split; [intros s Hs; by apply read_returns_shape in Hs as [Hnull _]|].
  split.
  - intros [e He]. revert He. rewrite read_cases.
    destruct (w_fs w !! p) eqn:Hf; [|intros _; by apply file_missing].
    destruct (ReadFile K _ p) as [st|e1] eqn:Hread;
      [|intros _; by eapply ReadFile_raised].
    case_bool_decide as Hst; [intros _; by eapply status_not_done|].
    destruct (TransferRoots K _ p) as [n|e1] eqn:Hroots;
      [|intros _; by eapply TransferRoots_raised].
    destruct (OneShape K _ p) as [s|e1] eqn:Hshape;
      [|intros _; by eapply OneShape_raised].
    destruct (IsNull s) eqn:Hnull; [intros _; by eapply shape_is_null|].
    discriminate.
  - intros Hfail.
    destruct (fst (StepReader.read K self p w)) as [s|e] eqn:Hrun; [|eauto].
    exfalso. apply read_returns_shape in Hrun
      as (Hnull & [f Hf] & Hread & [n Hroots] & Hshape).
    destruct Hfail as [H | st H Hst | s' H Hs' | e H | e H | e H]; congruence.
Qed.

(** ** ShapeMesher *)

(** The equation of [mesh]. *)
Lemma mesh_cases
    (K : Kernel) (self : ShapeMesher.t) (shape : TopoDS_Shape) (w : World) :
  let m := mesh_object self shape in
  ShapeMesher.mesh K self shape w
  = match IncrementalMesh K w m with
    | Raise e =>
        (Raise (if isinstance e MeshingError then e
                else mk_exn MeshingError ("Error meshing shape: " +:+ str e)),
         at_Perform w m)
    | Ok _ =>
        match Perform K (at_Perform w m) m with
        | Raise e =>
            (Raise (if isinstance e MeshingError then e
                    else mk_exn MeshingError
                           ("Error meshing shape: " +:+ str e)),
             at_IsDone w m)
        | Ok _ =>
            match IsDone K (at_IsDone w m) m with
            | Raise e =>
                (Raise (if isinstance e MeshingError then e
                        else mk_exn MeshingError
                               ("Error meshing shape: " +:+ str e)),
                 log_event (IsDone_called m) (at_IsDone w m))
            | Ok done =>
                if done then
                  (Ok shape, log_event (IsDone_called m) (at_IsDone w m))
                else
                  (Raise (mk_exn MeshingError "Meshing operation failed"),
                   log_event (IsDone_called m) (at_IsDone w m))
            end
        end
    end.
Proof.
  intros m. subst m.
  unfold ShapeMesher.mesh, at_IsDone, at_Perform, mesh_object. run.
  destruct (IncrementalMesh K w _) as [[]|e]; [|handler].
  destruct (Perform K _ _) as [[]|e]; [|handler].
  destruct (IsDone K _ _) as [[|]|e]; [reflexivity|reflexivity|handler].
Qed.

Lemma mesh_raises_MeshingError
    (K : Kernel) (self : ShapeMesher.t) (shape : TopoDS_Shape) (w : World)
    (e : exn) :
  fst (ShapeMesher.mesh K self shape w) = Raise e → exn_cls e = MeshingError.
Proof.
  rewrite mesh_cases. cbv zeta.
  repeat case_step; cbn [fst]; intros H; inversion H; subst;
    first [reflexivity | apply isinstance_leaf; [by right; left | assumption]].
Qed.

Lemma mesh_returns_shape
    (K : Kernel) (self : ShapeMesher.t) (shape : TopoDS_Shape) (w : World)
    (s : TopoDS_Shape) :
  let m := mesh_object self shape in
  fst (ShapeMesher.mesh K self shape w) = Ok s →
  s = shape
  ∧ IncrementalMesh K w m = Ok tt
  ∧ Perform K (at_Perform w m) m = Ok tt
  ∧ IsDone K (at_IsDone w m) m = Ok true.
Proof.
  intros m. rewrite mesh_cases. cbv zeta. fold m.
  destruct (IncrementalMesh K w m) as [[]|]; [|discriminate].
  destruct (Perform K _ m) as [[]|]; [|discriminate].
  destruct (IsDone K _ m) as [[|]|]; [|discriminate|discriminate].
  cbn [fst]. intros H. inversion H. done.
Qed.

Lemma mesh_trace
    (K : Kernel) (self : ShapeMesher.t) (shape : TopoDS_Shape) (w : World) :
  let m := mesh_object self shape in
  ∃ calls,
    w_trace (snd (ShapeMesher.mesh K self shape w))
    = w_trace w ++ BRepMesh_IncrementalMesh_created m :: calls
    ∧ Forall (λ ev, ev = Perform_called m ∨ ev = IsDone_called m) calls.
Proof.
  intros m. rewrite mesh_cases. cbv zeta. fold m. unfold at_IsDone, at_Perform.
  repeat case_step; cbn [snd log_event w_trace]; rewrite <- ?app_assoc;
    eexists; (split; [reflexivity|]);
    repeat (apply Forall_cons; split; [auto|]); apply Forall_nil_2.
Qed.

(** C7.  [ShapeMesher.mesh] raises no exception other than [MeshingError];
    it raises exactly when [IsDone] answers false after [Perform] or a kernel
    call raised; a shape that it returns is the shape it was given; and the
    only mesh object it creates carries the configured linear deflection with
    the relative flag off, so every kernel call of the run works in absolute
    mode. *)
Theorem ShapeMesher_mesh_contract
    (K : Kernel) (self : ShapeMesher.t) (shape : TopoDS_Shape) (w : World) :
  let m := mesh_object self shape in
  (∀ e, fst (ShapeMesher.mesh K self shape w) = Raise e →
        exn_cls e = MeshingError)
  ∧ ((∃ e, fst (ShapeMesher.mesh K self shape w) = Raise e)
     ↔ mesh_failure K w m)
  ∧ (∀ s, fst (ShapeMesher.mesh K self shape w) = Ok s → s = shape)
  ∧ (∃ calls,
       w_trace (snd (ShapeMesher.mesh K self shape w))
       = w_trace w ++ BRepMesh_IncrementalMesh_created m :: calls
       ∧ Forall (λ ev, ev = Perform_called m ∨ ev = IsDone_called m) calls)
  ∧ mesh_is_relative m = false
  ∧ mesh_linear_deflection m = ShapeMesher.linear_deflection self.
Proof.
  intros m.
  split; [apply mesh_raises_MeshingError|].
  split; [|split; [|split; [apply mesh_trace | split; reflexivity]]].
  - split.
    + intros [e He]. revert He. rewrite mesh_cases. cbv zeta. fold m.
      destruct (IncrementalMesh K w m) as [[]|e1] eqn:Hnew;
        [|intros _; by eapply IncrementalMesh_raised].
      destruct (Perform K _ m) as [[]|e1] eqn:Hperform;
        [|intros _; by eapply Perform_raised].
      destruct (IsDone K _ m) as [[|]|e1] eqn:Hdone;
        [discriminate | intros _; by apply not_done
        | intros _; by eapply IsDone_raised].
    + intros Hfail.
      destruct (fst (ShapeMesher.mesh K self shape w)) as [s|e] eqn:Hrun;
        [|eauto].
      exfalso. apply mesh_returns_shape in Hrun as (_ & Hnew & Hperform & Hdone).
      fold m in Hnew, Hperform, Hdone.
      destruct Hfail as [H | e H | e H | e H]; congruence.
  - intros s Hs. by apply mesh_returns_shape in Hs as [-> _].
Qed.

(** ** StlWriter *)

(** The equation of [write]. *)
Lemma write_cases
    (K : Kernel) (self : StlWriter.t) (shape : TopoDS_Shape) (path : string)
    (w : World) :
  let w1 := at_Write w self in
  let w2 := after_Write K w self shape path in
  StlWriter.write K self shape path w
  = match fst (Write K w1 shape path (StlWriter.ascii_mode self)) with
    | Raise e =>
        (Raise (if isinstance e StlWriteError then e
                else mk_exn StlWriteError
                       ("Error writing STL file: " +:+ str e)), w2)
    | Ok _ =>
        match w_fs w2 !! path with
        | None =>
            (Raise (mk_exn StlWriteError "STL file was not created"),
             log_event (os_path_exists_called path) w2)
        | Some _ =>
            (Ok path,
             log_event (os_path_getsize_called path)
               (log_event (os_path_exists_called path) w2))
        end
    end.
Proof.
  intros w1 w2. subst w1 w2.
  unfold StlWriter.write, after_Write, at_Write. run.
  destruct (Write K _ shape path _) as [[[]|e] fs']; cbn [fst snd];
    [|handler].
  cbn [w_fs].
  destruct (fs' !! path) as [f|] eqn:Hf.
  - rewrite bool_decide_eq_true_2 by eauto. cbn [negb]. cbv beta iota.
    rewrite w_fs_log_event. cbn [w_fs]. rewrite Hf. reflexivity.
  - rewrite bool_decide_eq_false_2 by (intros [? ?]; discriminate).
    reflexivity.
Qed.

Lemma write_raises_StlWriteError
    (K : Kernel) (self : StlWriter.t) (shape : TopoDS_Shape) (path : string)
    (w : World) (e : exn) :
  fst (StlWriter.write K self shape path w) = Raise e →
  exn_cls e = StlWriteError.
Proof.
  rewrite write_cases. cbv zeta.
  repeat case_step; cbn [fst]; intros H; inversion H; subst;
    first [reflexivity
          | apply isinstance_leaf; [by right; right | assumption]].
Qed.

Lemma write_returns_path
    (K : Kernel) (self : StlWriter.t) (shape : TopoDS_Shape) (path : string)
    (w : World) (out : string) :
  fst (StlWriter.write K self shape path w) = Ok out →
  out = path
  ∧ fst (Write K (at_Write w self) shape path (StlWriter.ascii_mode self))
    = Ok tt
  ∧ w_fs (snd (StlWriter.write K self shape path w))
    = snd (Write K (at_Write w self) shape path (StlWriter.ascii_mode self))
  ∧ is_Some (w_fs (snd (StlWriter.write K self shape path w)) !! path).
Proof.
  rewrite write_cases. cbv zeta. unfold after_Write.
  destruct (fst (Write K _ shape path _)) as [[]|]; [|discriminate].
  cbn [w_fs].
  destruct (snd (Write K _ shape path _) !! path) as [f|] eqn:Hf;
    [|discriminate].
  cbn [fst snd w_fs log_event]. intros H. inversion H. subst out.
  rewrite Hf. eauto.
Qed.

(** C2, as the code has it.  [StlWriter.write] raises no exception other
    than [StlWriteError]; when it returns, it returns the path it was given
    and a file is present at that path, of whatever length the kernel left,
    zero included; and it raises exactly when the kernel's [Write] raised or
    no file is present at the path once [Write] is over. *)
Theorem StlWriter_write_contract
    (K : Kernel) (self : StlWriter.t) (shape : TopoDS_Shape) (path : string)
    (w : World) :
  let kernel_write_result :=
    Write K (at_Write w self) shape path (StlWriter.ascii_mode self) in
  (∀ out, fst (StlWriter.write K self shape path w) = Ok out →
     out = path
     ∧ is_Some (w_fs (snd (StlWriter.write K self shape path w)) !! path))
  ∧ (∀ e, fst (StlWriter.write K self shape path w) = Raise e →
          exn_cls e = StlWriteError)
  ∧ ((∃ e, fst (StlWriter.write K self shape path w) = Raise e)
     ↔ (∃ e, fst kernel_write_result = Raise e)
       ∨ snd kernel_write_result !! path = None).
Proof.
  intros kwr. subst kwr.
  split; [intros out Hout; apply write_returns_path in Hout; tauto|].
  split; [apply write_raises_StlWriteError|].
  split.
  - intros [e He]. revert He. rewrite write_cases. cbv zeta. unfold after_Write.
    destruct (fst (Write K _ shape path _)) as [[]|e1]; [|eauto].
    cbn [w_fs].
    destruct (snd (Write K _ shape path _) !! path); [discriminate | auto].
  - intros Hfail.
    destruct (fst (StlWriter.write K self shape path w)) as [out|e] eqn:Hrun;
      [|eauto].
    exfalso. apply write_returns_path in Hrun as (_ & Hok & Hfs & [f Hf]).
    rewrite Hfs in Hf.
    destruct Hfail as [[e He] | Hnone]; congruence.
Qed.

(** C2, as the specification states it, fails: with a kernel whose writer
    reports no error and leaves a file of no bytes, [write] returns the path
    although the artifact on disk has length zero. *)
Lemma write_accepts_empty_artifact :
  fst (StlWriter.write Samples.empty_output_kernel (StlWriter.new false)
         Samples.unit_cube "/tmp/out.stl" Samples.upload_world)
  = Ok "/tmp/out.stl"
  ∧ (f_data <$>
       w_fs (snd (StlWriter.write Samples.empty_output_kernel
                    (StlWriter.new false) Samples.unit_cube "/tmp/out.stl"
                    Samples.upload_world)) !! "/tmp/out.stl")
    = Some []
  ∧ ¬ (∀ K self shape path w out f,
         fst (StlWriter.write K self shape path w) = Ok out →
         w_fs (snd (StlWriter.write K self shape path w)) !! path = Some f →
         (0 < length (f_data f))%nat).
Proof.
  split; [vm_compute; reflexivity|].
  split; [vm_compute; reflexivity|].
  intros Hclaim.
  specialize (Hclaim Samples.empty_output_kernel (StlWriter.new false)
                Samples.unit_cube "/tmp/out.stl" Samples.upload_world
                "/tmp/out.stl" (mk_file [] io_ok)).
  cbn [length f_data] in Hclaim.
  apply (Nat.lt_irrefl 0), Hclaim; vm_compute; reflexivity.
Qed.

(** ** ConversionService *)

Lemma isinstance_of_class (e : exn) (c : exn_class) :
  exn_cls e = c → isinstance e c = true.
Proof. intros <-. destruct e as [cls msg]. apply isinstance_own_class. Qed.

(** The equation of [convert], in terms of the three stages. *)
Lemma convert_cases
    (K : Kernel) (self : ConversionService.t) (p out : string) (w : World) :
  ConversionService.convert K self p out w
  = match StepReader.read K (ConversionService.step_reader self) p w with
    | (Raise e, w1) =>
        (Raise (mk_exn ConversionError ("Conversion failed: " +:+ str e)), w1)
    | (Ok shape, w1) =>
        match ShapeMesher.mesh K (ConversionService.shape_mesher self)
                shape w1 with
        | (Raise e, w2) =>
            (Raise (mk_exn ConversionError
                      ("Conversion failed: " +:+ str e)), w2)
        | (Ok meshed_shape, w2) =>
            match StlWriter.write K (ConversionService.stl_writer self)
                    meshed_shape out w2 with
            | (Raise e, w3) =>
                (Raise (mk_exn ConversionError
                          ("Conversion failed: " +:+ str e)), w3)
            | (Ok output_path, w3) => (Ok output_path, w3)
            end
        end
    end.
Proof.
  unfold ConversionService.convert, try_except, mbind, M_bind, mret, M_ret,
    raise.
  destruct (StepReader.read K _ p w) as [[shape|e] w1] eqn:Hread.
  2:{ pose proof (read_raises_StepReadError K
                    (ConversionService.step_reader self) p w e) as Hcls.
      rewrite Hread in Hcls.
      by rewrite (isinstance_of_class e StepReadError (Hcls eq_refl)). }
  destruct (ShapeMesher.mesh K _ shape w1) as [[meshed|e] w2] eqn:Hmesh.
  2:{ pose proof (mesh_raises_MeshingError K
                    (ConversionService.shape_mesher self) shape w1 e) as Hcls.
      rewrite Hmesh in Hcls.
      rewrite (isinstance_of_class e MeshingError (Hcls eq_refl)).
      by rewrite orb_true_r. }
  destruct (StlWriter.write K _ meshed out w2) as [[output_path|e] w3]
    eqn:Hwrite; [reflexivity|].
  pose proof (write_raises_StlWriteError K
                (ConversionService.stl_writer self) meshed out w2 e) as Hcls.
  rewrite Hwrite in Hcls.
  rewrite (isinstance_of_class e StlWriteError (Hcls eq_refl)).
  by rewrite orb_true_r.
Qed.

(** C1.  [convert] ends in one of two ways.  Either the read, the mesh and
    the write succeeded one after the other and [convert] returns the output
    path; or one stage raised its own error [e], the later stages did not
    run, and [convert] raises [ConversionError] whose text is
    "Conversion failed: " followed by the text of [e].  No [StepReadError],
    [MeshingError] or [StlWriteError] reaches the caller. *)
Theorem convert_returns_or_raises_ConversionError
    (K : Kernel) (self : ConversionService.t) (p out : string) (w : World) :
  (∃ shape w1 w2 w3,
     StepReader.read K (ConversionService.step_reader self) p w
     = (Ok shape, w1)
     ∧ ShapeMesher.mesh K (ConversionService.shape_mesher self) shape w1
       = (Ok shape, w2)
     ∧ StlWriter.write K (ConversionService.stl_writer self) shape out w2
       = (Ok out, w3)
     ∧ ConversionService.convert K self p out w = (Ok out, w3))
  ∨ (∃ e w',
       ConversionService.convert K self p out w
       = (Raise (mk_exn ConversionError ("Conversion failed: " +:+ str e)), w')
       ∧ ((StepReader.read K (ConversionService.step_reader self) p w
           = (Raise e, w')
           ∧ exn_cls e = StepReadError)
          ∨ (∃ shape w1,
               StepReader.read K (ConversionService.step_reader self) p w
               = (Ok shape, w1)
               ∧ ShapeMesher.mesh K (ConversionService.shape_mesher self)
                   shape w1 = (Raise e, w')
               ∧ exn_cls e = MeshingError)
          ∨ (∃ shape w1 w2,
               StepReader.read K (ConversionService.step_reader self) p w
               = (Ok shape, w1)
               ∧ ShapeMesher.mesh K (ConversionService.shape_mesher self)
                   shape w1 = (Ok shape, w2)
               ∧ StlWriter.write K (ConversionService.stl_writer self)
                   shape out w2 = (Raise e, w')
               ∧ exn_cls e = StlWriteError))).
Proof.
  rewrite convert_cases.
  destruct (StepReader.read K _ p w) as [[shape|e] w1] eqn:Hread.
  2:{ right. exists e, w1. split; [reflexivity|]. left. split; [reflexivity|].
      apply (read_raises_StepReadError K (ConversionService.step_reader self)
               p w). by rewrite Hread. }
  destruct (ShapeMesher.mesh K _ shape w1) as [[meshed|e] w2] eqn:Hmesh.
  2:{ right. exists e, w2. split; [reflexivity|]. right. left.
      exists shape, w1. split_and!; [done..|].
      apply (mesh_raises_MeshingError K (ConversionService.shape_mesher self)
               shape w1). by rewrite Hmesh. }
  assert (meshed = shape) as ->.
  { apply (mesh_returns_shape K (ConversionService.shape_mesher self)
             shape w1). by rewrite Hmesh. }
  destruct (StlWriter.write K _ shape out w2) as [[output_path|e] w3]
    eqn:Hwrite.
  - assert (output_path = out) as ->.
    { apply (write_returns_path K (ConversionService.stl_writer self)
               shape out w2). by rewrite Hwrite. }
    left. by exists shape, w1, w2, w3.
  - right. exists e, w3. split; [reflexivity|]. right. right.
    exists shape, w1, w2. split_and!; [done..|].
    apply (write_raises_StlWriteError K (ConversionService.stl_writer self)
             shape out w2). by rewrite Hwrite.
Qed.

(** C9.  When the read stage raises [e], [convert] raises [ConversionError]
    carrying the text of [e], which is a [StepReadError]; the run made no
    call of the mesher or of the writer and left the file system as it was.
    A parse that yields the null shape is such a run. *)
Theorem convert_stops_after_failed_read
    (K : Kernel) (self : ConversionService.t) (p out : string) (w : World)
    (e : exn) (w1 : World) :
  StepReader.read K (ConversionService.step_reader self) p w = (Raise e, w1) →
  ConversionService.convert K self p out w
  = (Raise (mk_exn ConversionError ("Conversion failed: " +:+ str e)), w1)
  ∧ exn_cls e = StepReadError
  ∧ w_fs w1 = w_fs w
  ∧ (∃ calls,
       w_trace w1 = w_trace w ++ calls
       ∧ Forall (λ ev, mesher_or_writer_call ev = false) calls)
  ∧ (∀ f n s,
       w_fs w !! p = Some f →
       ReadFile K (at_ReadFile w p) p = Ok IFSelect_RetDone →
       TransferRoots K (at_TransferRoots w p) p = Ok n →
       OneShape K (at_OneShape w p) p = Ok s →
       IsNull s = true →
       str e = "STEP file contains no valid shapes").
Proof.
  intros Hread.
  split; [by rewrite convert_cases, Hread|].
  split.
  { apply (read_raises_StepReadError K (ConversionService.step_reader self)
             p w). by rewrite Hread. }
  split.
  { pose proof (read_leaves_files K (ConversionService.step_reader self) p w)
      as H. by rewrite Hread in H. }
  split.
  { pose proof (read_trace K (ConversionService.step_reader self) p w) as H.
    by rewrite Hread in H. }
  intros f n s Hf Hstatus Hroots Hshape Hnull.
  revert Hread. rewrite read_cases, Hf, Hstatus, Hroots, Hshape, Hnull.
  rewrite bool_decide_eq_false_2 by (intros H; by apply H).
  intros H. by inversion H.
Qed.

(** ** The theorems at work on the sample worlds *)

Lemma validate_file_rejects_extension_witness :
  ∃ msg,
    FileValidator.validate_file Samples.listing Samples.validator
      "/tmp/in.step" "cube.stl" Samples.upload_world
    = (Raise (mk_exn InvalidFileTypeError msg), Samples.upload_world).
Proof.
  apply validate_file_rejects_extension. vm_compute. intros H. discriminate H.
Defined.

Lemma validate_file_content_signature_witness :
  (∃ w',
     FileValidator.validate_file Samples.listing Samples.validator
       "/tmp/in.step" "cube.STEP" Samples.upload_world
     = (Ok (".step", 60), w'))
  ∧ (∃ msg w',
       FileValidator.validate_file Samples.listing Samples.validator
         "/tmp/in.step" "renamed.step" Samples.renamed_world
       = (Raise (mk_exn InvalidFileTypeError msg), w')).
Proof.
  split.
  - refine (proj2 (validate_file_content_signature Samples.listing
                     Samples.validator Samples.upload_world "/tmp/in.step"
                     "cube.STEP" (mk_file Samples.step_text io_ok) _ _ _) _ _).
    + apply (bool_decide_unpack _). vm_compute. exact I.
    + vm_compute. reflexivity.
    + vm_compute. discriminate.
    + reflexivity.
    + left. apply bytes_in_spec. vm_compute. reflexivity.
  - refine (proj1 (validate_file_content_signature Samples.listing
                     Samples.validator Samples.renamed_world "/tmp/in.step"
                     "renamed.step" (mk_file (b "PK not a STEP file") io_ok)
                     _ _ _) _ _).
    + apply (bool_decide_unpack _). vm_compute. exact I.
    + vm_compute. reflexivity.
    + vm_compute. discriminate.
    + rewrite <- bytes_in_spec. vm_compute. discriminate.
    + rewrite <- bytes_in_spec. vm_compute. discriminate.
Defined.

Lemma validate_file_size_limit_witness :
  FileValidator.validate_file_size (FileValidator.new 10000) "/tmp/big.step"
    big_file_world
  = (Raise (mk_exn FileSizeExceededError
              "File size 0.02MB exceeds maximum allowed size 0.01MB"),
     log_event (os_path_getsize_called "/tmp/big.step") big_file_world)
  ∧ FileValidator.validate_file_size (FileValidator.new 20000)
      "/tmp/big.step" big_file_world
    = (Ok tt,
       log_event (os_path_getsize_called "/tmp/big.step") big_file_world).
Proof.
  assert (Hf : w_fs big_file_world !! "/tmp/big.step" = Some big_file)
    by apply lookup_singleton_eq.
  assert (Hsize : Z.of_nat (length (f_data big_file)) = 20000).
  { unfold big_file. cbn [f_data]. rewrite length_replicate.
    vm_compute. reflexivity. }
  split.
  - pose proof (proj1 (validate_file_size_limit (FileValidator.new 10000)
                         big_file_world "/tmp/big.step" big_file Hf)) as H.
    cbv zeta in H. rewrite Hsize in H. cbn [FileValidator.max_file_size_bytes] in H.
    rewrite H by reflexivity. reflexivity.
  - pose proof (proj1 (proj2 (proj2 (validate_file_size_limit
                                       (FileValidator.new 20000)
                                       big_file_world "/tmp/big.step"
                                       big_file Hf)))) as H.
    cbv zeta in H. rewrite Hsize in H. apply H. reflexivity.
Defined.

Lemma validate_magic_number_wraps_io_error_witness :
  FileValidator.validate_magic_number Samples.validator "/tmp/in.step"
    Samples.locked_world
  = (Raise (mk_exn InvalidFileTypeError
              ("Cannot read file for validation: " +:+
               "[Errno 13] Permission denied: '/tmp/in.step'")),
     log_event (open_rb_called "/tmp/in.step") Samples.locked_world).
Proof.
  refine (proj1 (validate_magic_number_wraps_io_error Samples.listing
                   Samples.validator Samples.locked_world "/tmp/in.step"
                   (mk_exn OSError
                      "[Errno 13] Permission denied: '/tmp/in.step'")
                   (log_event (open_rb_called "/tmp/in.step")
                      Samples.locked_world) _)).
  vm_compute. reflexivity.
Defined.

Lemma from_env_deflection_ranges_witness :
  (∃ cfg,
     Samples.from_env {[ "LINEAR_DEFLECTION" := "0.001";
                         "ANGULAR_DEFLECTION" := "1.0" ]} = Ok cfg
     ∧ AppConfig.linear_deflection cfg = 0.001%float
     ∧ AppConfig.angular_deflection cfg = 1.0%float)
  ∧ (∃ msg,
       Samples.from_env {[ "LINEAR_DEFLECTION" := "0.0009" ]}
       = Raise (mk_exn ValueError msg))
  ∧ (∃ msg,
       Samples.from_env {[ "LINEAR_DEFLECTION" := "nan" ]}
       = Raise (mk_exn ValueError msg)).
Proof.
  pose proof (from_env_deflection_ranges Samples.int_of_string
                Samples.float_of_string Samples.string_of_float)
    as (_ & Haccept & Hlinear & _).
  split; [|split].
  - apply (Haccept _ 0.001%float 1.0%float 50 5000 10); vm_compute; reflexivity.
  - apply (Hlinear _ 0.0009%float); [|left]; vm_compute; reflexivity.
  - apply (Hlinear _ PrimFloat.nan); [|left]; vm_compute; reflexivity.
Defined.

Lemma StepReader_read_contract_witness :
  ∃ e,
    fst (StepReader.read Samples.null_shape_kernel StepReader.new
           "/tmp/in.step" Samples.upload_world) = Raise e.
Proof.
  apply (StepReader_read_contract Samples.null_shape_kernel StepReader.new
           "/tmp/in.step" Samples.upload_world).
  apply (shape_is_null _ _ _ Samples.null_shape); reflexivity.
Defined.

Lemma ShapeMesher_mesh_contract_witness :
  ∃ e,
    fst (ShapeMesher.mesh Samples.unfinished_mesh_kernel
           (ShapeMesher.new 0.1 0.5) Samples.unit_cube Samples.upload_world)
    = Raise e.
Proof.
  apply (ShapeMesher_mesh_contract Samples.unfinished_mesh_kernel
           (ShapeMesher.new 0.1 0.5) Samples.unit_cube Samples.upload_world).
  apply not_done. reflexivity.
Defined.

Lemma StlWriter_write_contract_witness :
  ∃ e,
    fst (StlWriter.write Samples.silent_kernel (StlWriter.new false)
           Samples.unit_cube "/tmp/out.stl" Samples.upload_world) = Raise e.
Proof.
  apply (StlWriter_write_contract Samples.silent_kernel (StlWriter.new false)
           Samples.unit_cube "/tmp/out.stl" Samples.upload_world).
  right. vm_compute. reflexivity.
Defined.

Lemma convert_stops_after_failed_read_witness :
  fst (ConversionService.convert Samples.null_shape_kernel Samples.service
         "/tmp/in.step" "/tmp/out.stl" Samples.upload_world)
  = Raise (mk_exn ConversionError
             "Conversion failed: STEP file contains no valid shapes")
  ∧ w_fs (snd (ConversionService.convert Samples.null_shape_kernel
                 Samples.service "/tmp/in.step" "/tmp/out.stl"
                 Samples.upload_world)) !! "/tmp/out.stl" = None.
Proof.
  destruct (convert_stops_after_failed_read Samples.null_shape_kernel
              Samples.service "/tmp/in.step" "/tmp/out.stl"
              Samples.upload_world
              (mk_exn StepReadError "STEP file contains no valid shapes")
              (snd (StepReader.read Samples.null_shape_kernel StepReader.new
                      "/tmp/in.step" Samples.upload_world)))
    as (Hrun & _ & Hfs & _).
  - vm_compute. reflexivity.
  - rewrite Hrun. cbn [fst snd]. split; [reflexivity|].
    rewrite Hfs. vm_compute. reflexivity.
Defined.

(* ===================================================================== *)
(** * Further properties of the code *)
(* ===================================================================== *)

(** ** FileValidator, exit by exit *)

Section ValidatorCases.

Variable allowed_listing : string.
Variable self : FileValidator.t.

(** The equation of [validate_file]: one case per exit. *)
Lemma validate_file_cases (w : World) (file_path filename : string) :
  let file_ext := Py.lower (Py.path_suffix filename) in
  let w1 := log_event (os_path_getsize_called file_path) w in
  let w2 := log_event (open_rb_called file_path) w1 in
  let w3 := log_event (file_read_called file_path 512) w2 in
  FileValidator.validate_file allowed_listing self file_path filename w
  = if bool_decide (file_ext ∉ ALLOWED_EXTENSIONS) then
      (Raise (mk_exn InvalidFileTypeError
                ("Invalid file type: " +:+ file_ext +:+ ". Supported: " +:+
                 allowed_listing)), w)
    else
      match w_fs w !! file_path with
      | None =>
          (Raise (mk_exn OSError
                    (errno_text "[Errno 2] No such file or directory"
                       file_path)), w1)
      | Some f =>
          let file_size := Z.of_nat (length (f_data f)) in
          if bool_decide (file_size > FileValidator.max_file_size_bytes self)
          then
            (Raise
               match Py.truediv_MiB (FileValidator.max_file_size_bytes self),
                     Py.truediv_MiB file_size with
               | Some max_mb, Some actual_mb =>
                   mk_exn FileSizeExceededError
                     ("File size " +:+ Py.format_2f actual_mb +:+
                      "MB exceeds maximum allowed size " +:+
                      Py.format_2f max_mb +:+ "MB")
               | _, _ =>
                   mk_exn OverflowError
                     "integer division result too large for a float"
               end, w1)
          else
            match f_io f with
            | io_open_fails =>
                (Raise (mk_exn InvalidFileTypeError
                          ("Cannot read file for validation: " +:+
                           errno_text "[Errno 13] Permission denied"
                             file_path)), w2)
            | io_read_fails =>
                (Raise (mk_exn InvalidFileTypeError
                          ("Cannot read file for validation: " +:+
                           "[Errno 5] Input/output error")), w3)
            | io_ok =>
                if has_signature (take 512 (f_data f)) then
                  (Ok (file_ext, file_size),
                   log_event (os_path_getsize_called file_path) w3)
                else
                  (Raise (mk_exn InvalidFileTypeError
                            ("File content does not match STEP format. " +:+
                             "Please upload a valid STEP/IGES file.")), w3)
            end
      end.
Proof.
  intros file_ext w1 w2 w3. subst w1 w2 w3.
  unfold FileValidator.validate_file, FileValidator.validate_file_extension.
  fold file_ext.
  case_bool_decide as Hext.
  { run. reflexivity. }
  unfold FileValidator.validate_file_size, FileValidator.validate_magic_number,
    has_signature.
  run.
  destruct (w_fs w !! file_path) as [f|] eqn:Hf; [|reflexivity].
  case_bool_decide as Hsize.
  { destruct (Py.truediv_MiB (FileValidator.max_file_size_bytes self));
      [destruct (Py.truediv_MiB _)|]; reflexivity. }
  rewrite !w_fs_log_event, Hf.
  destruct (f_io f); try reflexivity.
  cbn [existsb STEP_MAGIC_NUMBERS]. rewrite orb_false_r.
  destruct (Py.bytes_in _ _ || Py.bytes_in _ _); cbn [negb]; [|reflexivity].
  cbv beta iota. rewrite !w_fs_log_event, Hf. reflexivity.
Qed.

(** X1.  Whatever [validate_file] accepts is valid: the extension it returns
    is the lower-cased suffix of the file name and is allowed, the size it
    returns is the length of the file, which is within the cap, the file
    reads, and one of the signatures occurs in its first 512 bytes. *)
Theorem validate_file_accepts_only_valid
    (w w' : World) (file_path filename ext : string) (size : Z) :
  FileValidator.validate_file allowed_listing self file_path filename w
  = (Ok (ext, size), w') →
  ext = Py.lower (Py.path_suffix filename)
  ∧ ext ∈ ALLOWED_EXTENSIONS
  ∧ ∃ f,
      w_fs w !! file_path = Some f
      ∧ size = Z.of_nat (length (f_data f))
      ∧ size ≤ FileValidator.max_file_size_bytes self
      ∧ f_io f = io_ok
      ∧ (contains (b "ISO-10303-21;") (take 512 (f_data f))
         ∨ contains (b "ISO-10303-28;") (take 512 (f_data f))).
Proof.
  rewrite validate_file_cases. cbv zeta.
  case_bool_decide as Hext; [discriminate|].
  destruct (w_fs w !! file_path) as [f|]; [|discriminate].
  case_bool_decide as Hsize; [discriminate|].
  destruct (f_io f) eqn:Hio; try discriminate.
  destruct (has_signature _) eqn:Hsig; [|discriminate].
  intros H. inversion H; subst. split; [reflexivity|].
  split; [exact Hext|].
  exists f. split_and!; [done | done | lia | done |].
  unfold has_signature in Hsig. apply orb_true_iff in Hsig.
  by rewrite !bytes_in_spec in Hsig.
Qed.

(** X2.  The size is checked before the content: for an allowed extension
    and a file over the cap, [validate_file] raises [FileSizeExceededError]
    after the one call that asked for the size; the file is never opened,
    whatever it holds and whether or not it can be read. *)
Theorem validate_file_checks_size_before_content
    (w : World) (file_path filename : string) (f : file) :
  Py.lower (Py.path_suffix filename) ∈ ALLOWED_EXTENSIONS →
  w_fs w !! file_path = Some f →
  FileValidator.max_file_size_bytes self < Z.of_nat (length (f_data f)) →
  Z.abs (FileValidator.max_file_size_bytes self) < 2 ^ 1043 →
  Z.of_nat (length (f_data f)) < 2 ^ 1043 →
  ∃ msg,
    FileValidator.validate_file allowed_listing self file_path filename w
    = (Raise (mk_exn FileSizeExceededError msg),
       log_event (os_path_getsize_called file_path) w).
Proof.
  intros Hext Hf Hlt Hmax Hsize. rewrite validate_file_cases. cbv zeta.
  rewrite bool_decide_eq_false_2 by (intros H; by apply H).
  rewrite Hf, bool_decide_eq_true_2 by lia.
  rewrite !truediv_MiB_in_range by lia. eauto.
Qed.

(** X3.  For an allowed extension and a path at which there is no file,
    [validate_file] lets the [OSError] of [os.path.getsize] through as it
    is; that exception is not a [FileValidationError]. *)
Theorem validate_file_missing_file
    (w : World) (file_path filename : string) :
  Py.lower (Py.path_suffix filename) ∈ ALLOWED_EXTENSIONS →
  w_fs w !! file_path = None →
  ∃ e,
    fst (FileValidator.validate_file allowed_listing self file_path filename w)
    = Raise e
    ∧ exn_cls e = OSError
    ∧ isinstance e FileValidationError = false.
Proof.
  intros Hext Hf. rewrite validate_file_cases. cbv zeta.
  rewrite bool_decide_eq_false_2 by (intros H; by apply H).
  rewrite Hf. eexists. split; [reflexivity|]. split; reflexivity.
Qed.

(** X4.  When a file is present at the path (and the byte counts are in the
    range of a float), every exception that [validate_file] raises is a
    [FileValidationError]. *)
Theorem validate_file_raises_validation_errors
    (w : World) (file_path filename : string) (f : file) (e : exn) :
  w_fs w !! file_path = Some f →
  Z.abs (FileValidator.max_file_size_bytes self) < 2 ^ 1043 →
  Z.of_nat (length (f_data f)) < 2 ^ 1043 →
  fst (FileValidator.validate_file allowed_listing self file_path filename w)
  = Raise e →
  isinstance e FileValidationError = true.
Proof.
  intros Hf Hmax Hsize. rewrite validate_file_cases. cbv zeta. rewrite Hf.
  rewrite !truediv_MiB_in_range by lia.
  repeat case_step; cbn [fst]; intros H; inversion H; reflexivity.
Qed.

(** X5.  Validation only reads: [validate_file] leaves the file system as
    it found it, on every exit. *)
Theorem validate_file_leaves_files
    (w : World) (file_path filename : string) :
  w_fs (snd (FileValidator.validate_file allowed_listing self file_path
               filename w))
  = w_fs w.
Proof.
  rewrite validate_file_cases. cbv zeta. repeat case_step; reflexivity.
Qed.

(** X6.  The content check looks at the first 512 bytes and at nothing
    else: two files that agree on them, and read alike, get the same
    verdict from [validate_magic_number]. *)
Theorem magic_number_reads_512_bytes_only
    (w1 w2 : World) (file_path : string) (f1 f2 : file) :
  w_fs w1 !! file_path = Some f1 →
  w_fs w2 !! file_path = Some f2 →
  f_io f1 = f_io f2 →
  take 512 (f_data f1) = take 512 (f_data f2) →
  fst (FileValidator.validate_magic_number self file_path w1)
  = fst (FileValidator.validate_magic_number self file_path w2).
Proof.
  intros H1 H2 Hio Hhead. unfold FileValidator.validate_magic_number. run.
  rewrite H1, H2, <- Hio, <- Hhead.
  destruct (f_io f1); try reflexivity.
  destruct (negb _); reflexivity.
Qed.

(** A signature that starts after the first 512 bytes does not count. *)
Lemma late_signature_is_rejected
    (w : World) (file_path : string) (padding rest : bytes) :
  w_fs w !! file_path = Some (mk_file (padding ++ rest) io_ok) →
  length padding = 512%nat →
  has_signature padding = false →
  ∃ msg,
    fst (FileValidator.validate_magic_number self file_path w)
    = Raise (mk_exn InvalidFileTypeError msg).
Proof.
  intros Hf Hlen Hsig.
  rewrite (validate_magic_number_readable self w file_path _ Hf eq_refl).
  cbn [f_data]. rewrite take_app_length' by done.
  unfold has_signature in Hsig. rewrite Hsig. eauto.
Qed.

End ValidatorCases.

(** ** The pipeline, stage by stage *)

Lemma mesh_leaves_files
    (K : Kernel) (self : ShapeMesher.t) (shape : TopoDS_Shape) (w : World) :
  w_fs (snd (ShapeMesher.mesh K self shape w)) = w_fs w.
Proof. rewrite mesh_cases. cbv zeta. repeat case_step; reflexivity. Qed.

Lemma read_success_world
    (K : Kernel) (self : StepReader.t) (p : string) (w : World)
    (s : TopoDS_Shape) (w1 : World) :
  StepReader.read K self p w = (Ok s, w1) →
  w1 = {| w_fs := w_fs w;
          w_trace := w_trace w ++
            [ os_path_exists_called p; os_path_getsize_called p;
              STEPControl_Reader_created; ReadFile_called p;
              TransferRoots_called p; OneShape_called p ] |}.
Proof.
  rewrite read_cases. unfold at_OneShape, at_TransferRoots, at_ReadFile.
  repeat case_step; intros H; inversion H; subst.
  unfold log_event. cbn [w_fs w_trace]. by rewrite <- !app_assoc.
Qed.

Lemma mesh_success_world
    (K : Kernel) (self : ShapeMesher.t) (shape : TopoDS_Shape) (w : World)
    (s : TopoDS_Shape) (w1 : World) :
  ShapeMesher.mesh K self shape w = (Ok s, w1) →
  let m := mesh_object self shape in
  w1 = {| w_fs := w_fs w;
          w_trace := w_trace w ++
            [ BRepMesh_IncrementalMesh_created m; Perform_called m;
              IsDone_called m ] |}.
Proof.
  rewrite mesh_cases. cbv zeta. unfold at_IsDone, at_Perform.
  repeat case_step; intros H; inversion H; subst.
  unfold log_event. cbn [w_fs w_trace]. by rewrite <- !app_assoc.
Qed.

Lemma write_success_world
    (K : Kernel) (self : StlWriter.t) (shape : TopoDS_Shape) (path : string)
    (w : World) (out : string) (w1 : World) :
  StlWriter.write K self shape path w = (Ok out, w1) →
  w_trace w1
  = w_trace w ++
      [ StlAPI_Writer_created; SetASCIIMode_called (StlWriter.ascii_mode self);
        Write_called shape path (StlWriter.ascii_mode self);
        os_path_exists_called path; os_path_getsize_called path ].
Proof.
  rewrite write_cases. cbv zeta. unfold after_Write, at_Write.
  repeat case_step; intros H; inversion H; subst.
  unfold log_event. cbn [w_fs w_trace]. by rewrite <- !app_assoc.
Qed.

(** A run of [convert] that returns went through the three stages. *)
Lemma convert_returns_path_stages
    (K : Kernel) (self : ConversionService.t) (p out : string) (w : World)
    (output_path : string) (w' : World) :
  ConversionService.convert K self p out w = (Ok output_path, w') →
  ∃ shape w1 w2,
    StepReader.read K (ConversionService.step_reader self) p w = (Ok shape, w1)
    ∧ ShapeMesher.mesh K (ConversionService.shape_mesher self) shape w1
      = (Ok shape, w2)
    ∧ StlWriter.write K (ConversionService.stl_writer self) shape out w2
      = (Ok output_path, w').
Proof.
  rewrite convert_cases.
  destruct (StepReader.read K _ p w) as [[shape|e] w1]; [|discriminate].
  destruct (ShapeMesher.mesh K _ shape w1) as [[meshed|e] w2] eqn:Hmesh;
    [|discriminate].
  assert (meshed = shape) as ->.
  { apply (mesh_returns_shape K (ConversionService.shape_mesher self)
             shape w1). by rewrite Hmesh. }
  destruct (StlWriter.write K _ shape out w2) as [[path|e] w3] eqn:Hwrite;
    [|discriminate].
  intros H. inversion H; subst. by exists shape, w1, w2.
Qed.

(** X7.  When the read stage returns a shape and the mesh stage raises [e],
    [convert] raises [ConversionError] carrying the text of [e], which is a
    [MeshingError]; the run made no call of the writer and left the file
    system as it was. *)
Theorem convert_stops_after_failed_mesh
    (K : Kernel) (self : ConversionService.t) (p out : string) (w : World)
    (shape : TopoDS_Shape) (w1 : World) (e : exn) (w2 : World) :
  StepReader.read K (ConversionService.step_reader self) p w = (Ok shape, w1) →
  ShapeMesher.mesh K (ConversionService.shape_mesher self) shape w1
  = (Raise e, w2) →
  ConversionService.convert K self p out w
  = (Raise (mk_exn ConversionError ("Conversion failed: " +:+ str e)), w2)
  ∧ exn_cls e = MeshingError
  ∧ w_fs w2 = w_fs w
  ∧ ∃ calls,
      w_trace w2 = w_trace w ++ calls
      ∧ Forall (λ ev, writer_call ev = false) calls.
Proof.
  intros Hread Hmesh.
  split; [by rewrite convert_cases, Hread, Hmesh|].
  split.
  { apply (mesh_raises_MeshingError K (ConversionService.shape_mesher self)
             shape w1). by rewrite Hmesh. }
  pose proof (read_success_world _ _ _ _ _ _ Hread) as ->.
  split.
  { pose proof (mesh_leaves_files K (ConversionService.shape_mesher self)
                  shape) as H.
    specialize (H {| w_fs := w_fs w;
                     w_trace := w_trace w ++
                       [ os_path_exists_called p; os_path_getsize_called p;
                         STEPControl_Reader_created; ReadFile_called p;
                         TransferRoots_called p; OneShape_called p ] |}).
    by rewrite Hmesh in H. }
  destruct (mesh_trace K (ConversionService.shape_mesher self) shape
              {| w_fs := w_fs w;
                 w_trace := w_trace w ++
                   [ os_path_exists_called p; os_path_getsize_called p;
                     STEPControl_Reader_created; ReadFile_called p;
                     TransferRoots_called p; OneShape_called p ] |})
    as (calls & Htrace & Hcalls).
  rewrite Hmesh in Htrace. cbn [snd w_trace] in Htrace.
  eexists. split; [by rewrite Htrace, <- app_assoc|].
  repeat (apply Forall_cons; split; [reflexivity|]).
  eapply Forall_impl; [exact Hcalls|].
  intros ev [-> | ->]; reflexivity.
Qed.

(** What three successful stages in a row leave behind. *)
Lemma stages_success_calls
    (K : Kernel) (self : ConversionService.t) (p out : string)
    (w w1 w2 w' : World) (shape : TopoDS_Shape) (output_path : string) :
  StepReader.read K (ConversionService.step_reader self) p w = (Ok shape, w1) →
  ShapeMesher.mesh K (ConversionService.shape_mesher self) shape w1
  = (Ok shape, w2) →
  StlWriter.write K (ConversionService.stl_writer self) shape out w2
  = (Ok output_path, w') →
  output_path = out
  ∧ is_Some (w_fs w' !! out)
  ∧ IsNull shape = false
  ∧ w_trace w' = w_trace w ++ conversion_calls self shape p out.
Proof.
  intros Hread Hmesh Hwrite.
  assert (Hout : output_path = out ∧ is_Some (w_fs w' !! out)).
  { pose proof (write_returns_path K (ConversionService.stl_writer self)
                  shape out w2 output_path) as H.
    rewrite Hwrite in H. destruct (H eq_refl) as (-> & _ & _ & Hsome).
    done. }
  destruct Hout as [-> Hsome]. split; [done|]. split; [done|].
  split.
  { apply (read_returns_shape K (ConversionService.step_reader self) p w).
    by rewrite Hread. }
  rewrite (write_success_world _ _ _ _ _ _ _ Hwrite).
  pose proof (mesh_success_world _ _ _ _ _ _ Hmesh) as ->.
  pose proof (read_success_world _ _ _ _ _ _ Hread) as ->.
  cbn [w_trace]. unfold conversion_calls. by rewrite <- !app_assoc.
Qed.

(** X8.  When [convert] returns, it returns the path it was given for the
    output, a file is present at that path, the shape that went through the
    stages is not null, and the log of the run grew by exactly the entries
    of [conversion_calls], in that order: the two file checks and the four
    calls on the reader object, the three calls on one mesh object built
    from the configured deflections in absolute mode, the three calls on
    the writer object and the two file checks on the output.  The accessors
    [IsNull()] and [ShapeType()] of the shape, which the source calls after
    [OneShape], are not logged and are not counted here. *)
Theorem convert_success_calls
    (K : Kernel) (self : ConversionService.t) (p out : string) (w : World)
    (output_path : string) (w' : World) :
  ConversionService.convert K self p out w = (Ok output_path, w') →
  output_path = out
  ∧ is_Some (w_fs w' !! out)
  ∧ ∃ shape,
      IsNull shape = false
      ∧ w_trace w' = w_trace w ++ conversion_calls self shape p out.
Proof.
  intros Hrun.
  destruct (convert_returns_path_stages K self p out w output_path w' Hrun)
    as (shape & w1 & w2 & Hread & Hmesh & Hwrite).
  destruct (stages_success_calls K self p out w w1 w2 w' shape output_path
              Hread Hmesh Hwrite) as (Hout & Hsome & Hnull & Hcalls).
  eauto.
Qed.

(** ** The converter of main.py against the services *)

Ltac swallow :=
  unfold isinstance; rewrite ?issubclass_Exception; reflexivity.

Lemma read_step_file_agrees
    (K : Kernel) (c : StepConverter.t) (p : string) (w : World) :
  StepConverter.read_step_file K c p w
  = (Ok (returned (fst (StepReader.read K StepReader.new p w))),
     snd (StepReader.read K StepReader.new p w)).
Proof.
  rewrite read_cases.
  unfold StepConverter.read_step_file, at_OneShape, at_TransferRoots,
    at_ReadFile. run.
  destruct (w_fs w !! p) as [f|] eqn:Hf.
  - rewrite bool_decide_eq_true_2 by eauto. cbn [negb]. cbv beta iota.
    rewrite !w_fs_log_event, Hf.
    match goal with
    | |- context [ReadFile K ?w0 p] => destruct (ReadFile K w0 p) as [st|e]
    end; [|swallow].
    destruct (bool_decide (st ≠ IFSelect_RetDone)); [reflexivity|].
    match goal with
    | |- context [TransferRoots K ?w0 p] =>
        destruct (TransferRoots K w0 p) as [n|e]
    end; [|swallow].
    match goal with
    | |- context [OneShape K ?w0 p] => destruct (OneShape K w0 p) as [s|e]
    end; [|swallow].
    destruct (IsNull s); reflexivity.
  - rewrite bool_decide_eq_false_2 by (intros [? ?]; discriminate).
    reflexivity.
Qed.

Lemma mesh_shape_agrees
    (K : Kernel) (c : StepConverter.t) (shape : TopoDS_Shape) (w : World) :
  let mesher := ShapeMesher.new (StepConverter.linear_deflection c)
                                (StepConverter.angular_deflection c) in
  StepConverter.mesh_shape K c shape w
  = (Ok (succeeded (fst (ShapeMesher.mesh K mesher shape w))),
     snd (ShapeMesher.mesh K mesher shape w)).
Proof.
  intros mesher. subst mesher. rewrite mesh_cases. cbv zeta.
  unfold StepConverter.mesh_shape, at_IsDone, at_Perform, mesh_object. run.
  cbn [ShapeMesher.linear_deflection ShapeMesher.angular_deflection].
  destruct (IncrementalMesh K w _) as [[]|e]; [|swallow].
  destruct (Perform K _ _) as [[]|e]; [|swallow].
  destruct (IsDone K _ _) as [[|]|e]; [reflexivity|reflexivity|swallow].
Qed.

Lemma write_stl_file_agrees
    (K : Kernel) (c : StepConverter.t) (shape : TopoDS_Shape) (path : string)
    (w : World) :
  StepConverter.write_stl_file K c shape path w
  = (Ok (succeeded (fst (StlWriter.write K (StlWriter.new false) shape path w))),
     snd (StlWriter.write K (StlWriter.new false) shape path w)).
Proof.
  rewrite write_cases. cbv zeta.
  unfold StepConverter.write_stl_file, after_Write, at_Write. run.
  cbn [StlWriter.ascii_mode].
  destruct (Write K _ shape path false) as [[[]|e] fs']; cbn [fst snd];
    [|swallow].
  cbn [w_fs].
  destruct (fs' !! path) as [f|] eqn:Hf.
  - rewrite bool_decide_eq_true_2 by eauto. cbn [negb]. cbv beta iota.
    rewrite w_fs_log_event. cbn [w_fs]. rewrite Hf. reflexivity.
  - rewrite bool_decide_eq_false_2 by (intros [? ?]; discriminate).
    reflexivity.
Qed.

(** X9.  The converter behind the endpoints and the refactored service are
    the same pipeline: [convert_step_to_stl] never raises, it returns [True]
    exactly when [ConversionService.convert], set up with the converter's
    deflections and binary output, returns, and both leave the same file
    system and the same log of calls. *)
Theorem convert_step_to_stl_agrees_with_service
    (K : Kernel) (c : StepConverter.t) (p out : string) (w : World) :
  StepConverter.convert_step_to_stl K c p out w
  = (Ok (succeeded (fst (ConversionService.convert K (service_of c) p out w))),
     snd (ConversionService.convert K (service_of c) p out w)).
Proof.
  rewrite convert_cases.
  unfold StepConverter.convert_step_to_stl, service_of.
  cbn [ConversionService.step_reader ConversionService.shape_mesher
       ConversionService.stl_writer].
  unfold mbind at 1. unfold M_bind at 1. rewrite read_step_file_agrees.
  destruct (StepReader.read K _ p w) as [[shape|e] w1]; cbn [fst snd returned];
    [|reflexivity].
  unfold mbind at 1. unfold M_bind at 1.
  rewrite mesh_shape_agrees. cbv zeta.
  destruct (ShapeMesher.mesh K _ shape w1) as [[meshed|e] w2] eqn:Hmesh;
    cbn [fst snd succeeded negb]; [|reflexivity].
  assert (meshed = shape) as ->.
  { apply (mesh_returns_shape K
             (ShapeMesher.new (StepConverter.linear_deflection c)
                              (StepConverter.angular_deflection c))
             shape w1 meshed). by rewrite Hmesh. }
  unfold mbind at 1. unfold M_bind at 1. rewrite write_stl_file_agrees.
  destruct (StlWriter.write K _ shape out w2) as [[path|e] w3];
    reflexivity.
Qed.

(** X10.  When [convert_step_to_stl] returns [True], a file is present at
    the output path, the parsed shape was not null, and the log of the run
    grew by exactly the entries of [conversion_calls] for binary output, in
    that order.  The accessors [IsNull()] and [ShapeType()] of the shape are
    not logged and are not counted here. *)
Theorem convert_step_to_stl_true
    (K : Kernel) (c : StepConverter.t) (p out : string) (w w' : World) :
  StepConverter.convert_step_to_stl K c p out w = (Ok true, w') →
  is_Some (w_fs w' !! out)
  ∧ ∃ shape,
      IsNull shape = false
      ∧ w_trace w' = w_trace w ++ conversion_calls (service_of c) shape p out.
Proof.
  unfold StepConverter.convert_step_to_stl.
  unfold mbind at 1. unfold M_bind at 1. rewrite read_step_file_agrees.
  destruct (StepReader.read K StepReader.new p w) as [[shape|e] w1] eqn:Hread;
    cbn [fst snd returned]; [|discriminate].
  unfold mbind at 1. unfold M_bind at 1.
  rewrite mesh_shape_agrees. cbv zeta.
  destruct (ShapeMesher.mesh K _ shape w1) as [[meshed|e] w2] eqn:Hmesh;
    cbn [fst snd succeeded negb]; [|discriminate].
  assert (meshed = shape) as ->.
  { apply (mesh_returns_shape K
             (ShapeMesher.new (StepConverter.linear_deflection c)
                              (StepConverter.angular_deflection c))
             shape w1 meshed). by rewrite Hmesh. }
  unfold mbind at 1. unfold M_bind at 1. rewrite write_stl_file_agrees.
  destruct (StlWriter.write K (StlWriter.new false) shape out w2)
    as [[path|e] w3] eqn:Hwrite; cbn [fst snd succeeded negb];
    [|discriminate].
  intros H. inversion H; subst.
  destruct (stages_success_calls K (service_of c) p out w w1 w2 w' shape path
              Hread Hmesh Hwrite) as (_ & Hsome & Hnull & Hcalls).
  eauto.
Qed.

(** ** AppConfig, loaded and validated *)

Lemma split_not_nil (sep : ascii) (s : string) : Py.split sep s ≠ [].
Proof.
  destruct s as [|c s]; [discriminate|]. cbn [Py.split].
  destruct (Ascii.eqb c sep); [discriminate|].
  destruct (Py.split sep s); discriminate.
Qed.

Lemma upper_char_idempotent (c : ascii) :
  Py.upper_char (Py.upper_char c) = Py.upper_char c.
Proof.
  destruct c as [b0 b1 b2 b3 b4 b5 b6 b7].
  destruct b0, b1, b2, b3, b4, b5, b6, b7; reflexivity.
Qed.

Lemma upper_idempotent (s : string) : Py.upper (Py.upper s) = Py.upper s.
Proof.
  unfold Py.upper. induction s as [|c s IH]; [reflexivity|].
  cbn [Py.map_string]. by rewrite upper_char_idempotent, IH.
Qed.

Section ConfigCases.

Variable py_int : string → option Z.
Variable py_float : string → option float.
Variable py_float_str : float → string.

(** X11.  Every exception that [from_env] raises is a [ValueError]. *)
Theorem from_env_raises_ValueError (env : gmap string string) (e : exn) :
  AppConfig.from_env py_int py_float py_float_str env = Raise e →
  exn_cls e = ValueError.
Proof.
  unfold AppConfig.from_env, AppConfig.int, AppConfig.float_of_str.
  repeat (case_step; cbn [mbind result_bind mret result_ret]);
    intros H; inversion H; reflexivity.
Qed.

(** X12.  A configuration that [from_env] returns has both deflections in
    range, a size cap that is the configured number of megabytes times
    [1024 * 1024], at least one CORS origin, and a log level in upper
    case. *)
Theorem from_env_invariants (env : gmap string string) (cfg : AppConfig.t) :
  AppConfig.from_env py_int py_float py_float_str env = Ok cfg →
  PrimFloat.leb 0.001 (AppConfig.linear_deflection cfg) = true
  ∧ PrimFloat.leb (AppConfig.linear_deflection cfg) 1.0 = true
  ∧ PrimFloat.leb 0.1 (AppConfig.angular_deflection cfg) = true
  ∧ PrimFloat.leb (AppConfig.angular_deflection cfg) 1.0 = true
  ∧ (∃ mb, py_int (AppConfig.getenv env "MAX_FILE_SIZE_MB" "50") = Some mb
           ∧ AppConfig.max_file_size_bytes cfg = mb * 1024 * 1024)
  ∧ AppConfig.cors_origins cfg ≠ []
  ∧ Py.upper (AppConfig.log_level cfg) = AppConfig.log_level cfg.
Proof.
  unfold AppConfig.from_env, AppConfig.int, AppConfig.float_of_str,
    AppConfig.between.
  destruct (py_int (AppConfig.getenv env "MAX_FILE_SIZE_MB" "50")) as [mb|];
    cbn [mbind result_bind]; [|discriminate].
  destruct (py_float (AppConfig.getenv env "LINEAR_DEFLECTION" "0.1"))
    as [lin|]; cbn [mbind result_bind]; [|discriminate].
  destruct (py_float (AppConfig.getenv env "ANGULAR_DEFLECTION" "0.5"))
    as [ang|]; cbn [mbind result_bind]; [|discriminate].
  destruct (PrimFloat.leb 0.001 lin) eqn:L1; [|discriminate].
  destruct (PrimFloat.leb lin 1.0) eqn:L2; [|discriminate].
  destruct (PrimFloat.leb 0.1 ang) eqn:A1; [|discriminate].
  destruct (PrimFloat.leb ang 1.0) eqn:A2; [|discriminate].
  cbn [andb negb].
  destruct (py_int (AppConfig.getenv env "PORT" "5000")) as [port|];
    cbn [mbind result_bind]; [|discriminate].
  destruct (py_int (AppConfig.getenv env "RATE_LIMIT_PER_MINUTE" "10"))
    as [rate|]; cbn [mbind result_bind mret result_ret]; [|discriminate].
  intros H. inversion H; subst. cbn.
  split_and!; try done.
  - by exists mb.
  - intros Hnil. apply map_eq_nil in Hnil. by apply split_not_nil in Hnil.
  - apply upper_idempotent.
Qed.

(** X13.  On a configuration that [from_env] returned, [validate] succeeds
    exactly when the port is between 1 and 65535, the size cap is at least
    one megabyte and the rate limit is at least 1; its check of the CORS
    origins cannot fail there. *)
Theorem from_env_then_validate (env : gmap string string) (cfg : AppConfig.t) :
  AppConfig.from_env py_int py_float py_float_str env = Ok cfg →
  (AppConfig.validate cfg = Ok tt
   ↔ 1 ≤ AppConfig.port cfg ≤ 65535
     ∧ 1024 * 1024 ≤ AppConfig.max_file_size_bytes cfg
     ∧ 1 ≤ AppConfig.rate_limit_per_minute cfg)
  ∧ AppConfig.validate cfg
    ≠ Raise (mk_exn ValueError "CORS_ORIGINS cannot be empty").
Proof.
  intros Hload.
  assert (Hcors : AppConfig.cors_origins cfg ≠ []).
  { revert Hload.
    unfold AppConfig.from_env, AppConfig.int, AppConfig.float_of_str.
    repeat (case_step; cbn [mbind result_bind mret result_ret]);
      intros H; inversion H; subst; cbn;
      intros Hnil; apply map_eq_nil in Hnil; by apply split_not_nil in Hnil. }
  unfold AppConfig.validate.
  rewrite (bool_decide_eq_false_2 _ Hcors).
  destruct (Z.ltb_spec (AppConfig.port cfg) 1);
    destruct (Z.ltb_spec 65535 (AppConfig.port cfg)); cbn [orb];
    try (split; [split; [discriminate | lia] | discriminate]).
  destruct (Z.ltb_spec (AppConfig.max_file_size_bytes cfg) (1024 * 1024));
    try (split; [split; [discriminate | lia] | discriminate]).
  destruct (Z.ltb_spec (AppConfig.rate_limit_per_minute cfg) 1);
    try (split; [split; [discriminate | lia] | discriminate]).
  split; [split; [intros _; lia | reflexivity] | discriminate].
Qed.

End ConfigCases.

(** ** The exception classes *)

(** The fuel of [issubclass] is enough: it follows the chain of base
    classes to its end. *)
Lemma issubclass_derives_from (c d : exn_class) :
  issubclass c d = true ↔ derives_from c d.
Proof.
  split.
  - destruct c, d; intros H; try discriminate H;
      repeat first [ apply derives_refl
                   | eapply derives_step; [reflexivity|] ].
  - intros H. induction H as [c | c parent d Hbase _ IH].
    + destruct c; reflexivity.
    + destruct c; cbn in Hbase; inversion Hbase; subst;
        destruct d; first [reflexivity | discriminate IH].
Qed.

(** ** The line splice of fix_jsx.py *)

Lemma new_ending_length : length FixJsx.new_ending = 7%nat.
Proof. reflexivity. Qed.

Lemma result_length (lines : list string) :
  (1322 ≤ length lines)%nat →
  length (FixJsx.result lines) = S (length lines).
Proof.
  intros Hlen. unfold FixJsx.result, FixJsx.before, FixJsx.after.
  rewrite !length_app, length_take_le, new_ending_length, length_drop by lia.
  lia.
Qed.

(** X15.  On a file of at least 1322 lines the splice keeps the first 1316
    lines where they are, puts the seven new lines at indices 1316 to 1322,
    drops the six old lines 1316 to 1321 and moves every later line down by
    one; the result is one line longer. *)
Theorem result_layout (lines : list string) :
  (1322 ≤ length lines)%nat →
  length (FixJsx.result lines) = S (length lines)
  ∧ (∀ i, (i < 1316)%nat → FixJsx.result lines !! i = lines !! i)
  ∧ (∀ j, (j < 7)%nat →
          FixJsx.result lines !! (1316 + j)%nat = FixJsx.new_ending !! j)
  ∧ (∀ i, (1322 ≤ i)%nat → FixJsx.result lines !! S i = lines !! i).
Proof.
  intros Hlen. unfold FixJsx.result, FixJsx.before, FixJsx.after.
  assert (Htake : length (take 1316 lines) = 1316%nat)
    by (apply length_take_le; lia).
  split_and!.
  - rewrite !length_app, Htake, new_ending_length, length_drop. lia.
  - intros i Hi. rewrite lookup_app_l by lia. by apply lookup_take_lt.
  - intros j Hj. rewrite lookup_app_r by lia.
    rewrite Htake. replace (1316 + j - 1316)%nat with j by lia.
    apply lookup_app_l. rewrite new_ending_length. lia.
  - intros i Hi. rewrite lookup_app_r by lia.
    rewrite lookup_app_r by (rewrite new_ending_length; lia).
    rewrite Htake, new_ending_length, lookup_drop. f_equal. lia.
Qed.

(** X16.  On a file of at most 1316 lines the splice removes nothing: the
    seven new lines are appended after the last line. *)
Theorem result_of_short_file (lines : list string) :
  (length lines ≤ 1316)%nat →
  FixJsx.result lines = lines ++ FixJsx.new_ending.
Proof.
  intros Hlen. unfold FixJsx.result, FixJsx.before, FixJsx.after.
  rewrite take_ge by lia. rewrite drop_ge by lia. by rewrite app_nil_r.
Qed.

(** X17.  The splice is not idempotent: applied to its own output (of a
    file of at least 1322 lines) it keeps the first six new lines, writes
    the seven again and so leaves the closing line twice; every run makes
    the file one line longer. *)
Theorem result_twice (lines : list string) :
  (1322 ≤ length lines)%nat →
  FixJsx.result (FixJsx.result lines)
  = take 1316 lines ++ FixJsx.new_ending
    ++ ["      })()}" +:+ FixJsx.CRLF] ++ drop 1322 lines
  ∧ length (FixJsx.result (FixJsx.result lines)) = S (S (length lines))
  ∧ FixJsx.result (FixJsx.result lines) ≠ FixJsx.result lines.
Proof.
  intros Hlen.
  assert (Htake : length (take 1316 lines) = 1316%nat)
    by (apply length_take_le; lia).
  assert (Htwice : FixJsx.result (FixJsx.result lines)
                   = take 1316 lines ++ FixJsx.new_ending
                     ++ ["      })()}" +:+ FixJsx.CRLF] ++ drop 1322 lines).
  { unfold FixJsx.result at 1. unfold FixJsx.before, FixJsx.after.
    unfold FixJsx.result, FixJsx.before, FixJsx.after.
    rewrite take_app_length' by done.
    change 1322%nat with (1316 + 6)%nat at 1.
    rewrite drop_app_add' by done. reflexivity. }
  assert (Hlength : length (FixJsx.result (FixJsx.result lines))
                    = S (S (length lines))).
  { rewrite Htwice, !length_app, Htake, new_ending_length, length_drop.
    cbn [length]. lia. }
  split_and!; [done | done |].
  intros Heq. apply (f_equal length) in Heq. rewrite Hlength in Heq.
  rewrite (result_length lines Hlen) in Heq. lia.
Qed.

(** ** What reaches the disk *)

Lemma write_leaves_kernel_output
    (K : Kernel) (self : StlWriter.t) (shape : TopoDS_Shape) (path : string)
    (w : World) :
  w_fs (snd (StlWriter.write K self shape path w))
  = snd (Write K (at_Write w self) shape path (StlWriter.ascii_mode self)).
Proof.
  rewrite write_cases. cbv zeta. unfold after_Write.
  repeat case_step; reflexivity.
Qed.

(** X18.  Once the read and the mesh stage have succeeded, the file system
    after [convert] is the one the kernel's [Write] left when it was handed
    the file system [convert] started from.  That is so whether [Write]
    returned or raised: when it raised, [convert] raises [ConversionError]
    and what [Write] had put on disk by then stays there. *)
Theorem convert_keeps_what_Write_left
    (K : Kernel) (self : ConversionService.t) (p out : string) (w : World)
    (shape : TopoDS_Shape) (w1 : World) (meshed : TopoDS_Shape) (w2 : World) :
  StepReader.read K (ConversionService.step_reader self) p w = (Ok shape, w1) →
  ShapeMesher.mesh K (ConversionService.shape_mesher self) shape w1
  = (Ok meshed, w2) →
  let writer := ConversionService.stl_writer self in
  let kernel_write_result :=
    Write K (at_Write w2 writer) meshed out (StlWriter.ascii_mode writer) in
  meshed = shape
  ∧ w_fs (at_Write w2 writer) = w_fs w
  ∧ w_fs (snd (ConversionService.convert K self p out w))
    = snd kernel_write_result
  ∧ (∀ e, fst kernel_write_result = Raise e →
          ∃ msg,
            fst (ConversionService.convert K self p out w)
            = Raise (mk_exn ConversionError msg)).
Proof.
  intros Hread Hmesh writer kwr. subst writer kwr.
  assert (meshed = shape) as ->.
  { apply (mesh_returns_shape K (ConversionService.shape_mesher self)
             shape w1). by rewrite Hmesh. }
  split; [reflexivity|].
  split.
  { unfold at_Write. rewrite !w_fs_log_event.
    pose proof (mesh_leaves_files K (ConversionService.shape_mesher self)
                  shape w1) as H2. rewrite Hmesh in H2. cbn [snd] in H2.
    pose proof (read_leaves_files K (ConversionService.step_reader self) p w)
      as H1. rewrite Hread in H1. cbn [snd] in H1. congruence. }
  pose proof (write_leaves_kernel_output K (ConversionService.stl_writer self)
                shape out w2) as Hfs.
  rewrite convert_cases, Hread, Hmesh.
  split.
  - destruct (StlWriter.write K _ shape out w2) as [[path|e] w3];
      cbn [snd] in *; exact Hfs.
  - intros e He.
    rewrite write_cases. cbv zeta. rewrite He. cbn [fst]. eauto.
Qed.

(** ** The further properties on the sample worlds *)

Lemma validate_file_accepts_only_valid_witness :
  ".step" ∈ ALLOWED_EXTENSIONS.
Proof.
  destruct (validate_file_accepts_only_valid Samples.listing Samples.validator
              Samples.upload_world
              (snd (FileValidator.validate_file Samples.listing
                      Samples.validator "/tmp/in.step" "cube.STEP"
                      Samples.upload_world))
              "/tmp/in.step" "cube.STEP" ".step" 60)
    as (_ & Hallowed & _); [vm_compute; reflexivity | exact Hallowed].
Defined.

Lemma validate_file_checks_size_before_content_witness :
  ∃ msg,
    FileValidator.validate_file Samples.listing (FileValidator.new 10)
      "/tmp/in.step" "cube.step" Samples.locked_world
    = (Raise (mk_exn FileSizeExceededError msg),
       log_event (os_path_getsize_called "/tmp/in.step") Samples.locked_world).
Proof.
  apply (validate_file_checks_size_before_content Samples.listing
           (FileValidator.new 10) Samples.locked_world "/tmp/in.step"
           "cube.step" (mk_file Samples.step_text io_open_fails)).
  - apply (bool_decide_unpack _). vm_compute. exact I.
  - vm_compute. reflexivity.
  - vm_compute. reflexivity.
  - vm_compute. reflexivity.
  - vm_compute. reflexivity.
Defined.

Lemma validate_file_missing_file_witness :
  ∃ e,
    fst (FileValidator.validate_file Samples.listing Samples.validator
           "/tmp/gone.step" "cube.step" Samples.upload_world) = Raise e
    ∧ exn_cls e = OSError
    ∧ isinstance e FileValidationError = false.
Proof.
  apply validate_file_missing_file.
  - apply (bool_decide_unpack _). vm_compute. exact I.
  - vm_compute. reflexivity.
Defined.

Lemma validate_file_raises_validation_errors_witness :
  isinstance
    (mk_exn InvalidFileTypeError
       ("File content does not match STEP format. " +:+
        "Please upload a valid STEP/IGES file."))
    FileValidationError = true.
Proof.
  apply (validate_file_raises_validation_errors Samples.listing
           Samples.validator Samples.renamed_world "/tmp/in.step"
           "renamed.step" (mk_file (b "PK not a STEP file") io_ok));
    vm_compute; reflexivity.
Defined.

Lemma magic_number_reads_512_bytes_only_witness :
  fst (FileValidator.validate_magic_number Samples.validator "/tmp/in.step"
         late_signature_world)
  = fst (FileValidator.validate_magic_number Samples.validator "/tmp/in.step"
           no_signature_world)
  ∧ f_data late_signature_file ≠ f_data no_signature_file
  ∧ (512 < length (f_data late_signature_file))%nat.
Proof.
  split; [|split].
  - apply (magic_number_reads_512_bytes_only Samples.validator
             late_signature_world no_signature_world "/tmp/in.step"
             late_signature_file no_signature_file);
      vm_compute; reflexivity.
  - vm_compute. discriminate.
  - vm_compute. lia.
Defined.

Lemma convert_stops_after_failed_mesh_witness :
  fst (ConversionService.convert Samples.unfinished_mesh_kernel Samples.service
         "/tmp/in.step" "/tmp/out.stl" Samples.upload_world)
  = Raise (mk_exn ConversionError
             "Conversion failed: Meshing operation failed").
Proof.
  destruct (convert_stops_after_failed_mesh Samples.unfinished_mesh_kernel
              Samples.service "/tmp/in.step" "/tmp/out.stl"
              Samples.upload_world Samples.unit_cube
              (snd (StepReader.read Samples.unfinished_mesh_kernel
                      StepReader.new "/tmp/in.step" Samples.upload_world))
              (mk_exn MeshingError "Meshing operation failed")
              (snd (ConversionService.convert Samples.unfinished_mesh_kernel
                      Samples.service "/tmp/in.step" "/tmp/out.stl"
                      Samples.upload_world)))
    as (Hrun & _).
  - vm_compute. reflexivity.
  - vm_compute. reflexivity.
  - rewrite Hrun. reflexivity.
Defined.

Lemma convert_success_calls_witness :
  is_Some
    (w_fs (snd (ConversionService.convert Samples.cube_kernel Samples.service
                  "/tmp/in.step" "/tmp/out.stl" Samples.upload_world))
     !! "/tmp/out.stl").
Proof.
  destruct (convert_success_calls Samples.cube_kernel Samples.service
              "/tmp/in.step" "/tmp/out.stl" Samples.upload_world
              "/tmp/out.stl"
              (snd (ConversionService.convert Samples.cube_kernel
                      Samples.service "/tmp/in.step" "/tmp/out.stl"
                      Samples.upload_world)))
    as (_ & Hsome & _); [vm_compute; reflexivity | exact Hsome].
Defined.

Lemma convert_step_to_stl_true_witness :
  is_Some
    (w_fs (snd (StepConverter.convert_step_to_stl Samples.cube_kernel converter
                  "/tmp/in.step" "/tmp/out.stl" Samples.upload_world))
     !! "/tmp/out.stl").
Proof.
  destruct (convert_step_to_stl_true Samples.cube_kernel converter
              "/tmp/in.step" "/tmp/out.stl" Samples.upload_world
              (snd (StepConverter.convert_step_to_stl Samples.cube_kernel
                      converter "/tmp/in.step" "/tmp/out.stl"
                      Samples.upload_world)))
    as (Hsome & _); [vm_compute; reflexivity | exact Hsome].
Defined.

Lemma from_env_raises_ValueError_witness :
  exn_cls (mk_exn ValueError
             "invalid literal for int() with base 10: 'fifty'") = ValueError.
Proof.
  apply (from_env_raises_ValueError Samples.int_of_string
           Samples.float_of_string Samples.string_of_float
           {[ "MAX_FILE_SIZE_MB" := "fifty" ]}).
  vm_compute. reflexivity.
Defined.

Lemma from_env_invariants_witness :
  AppConfig.cors_origins default_config ≠ []
  ∧ Py.upper (AppConfig.log_level default_config)
    = AppConfig.log_level default_config.
Proof.
  destruct (from_env_invariants Samples.int_of_string Samples.float_of_string
              Samples.string_of_float ∅ default_config)
    as (_ & _ & _ & _ & _ & Hcors & Hlevel).
  - vm_compute. reflexivity.
  - split; [exact Hcors | exact Hlevel].
Defined.

Lemma from_env_then_validate_witness :
  AppConfig.validate default_config = Ok tt.
Proof.
  apply (from_env_then_validate Samples.int_of_string Samples.float_of_string
           Samples.string_of_float ∅ default_config).
  - vm_compute. reflexivity.
  - vm_compute. repeat split; discriminate.
Defined.

Lemma result_layout_witness :
  length (FixJsx.result (replicate 1400 "line")) = 1401%nat.
Proof.
  apply (result_layout (replicate 1400 "line")).
  rewrite length_replicate. lia.
Defined.

Lemma result_of_short_file_witness :
  FixJsx.result ["<div>"; "</div>"] = ["<div>"; "</div>"] ++ FixJsx.new_ending.
Proof. apply result_of_short_file. cbn [length]. lia. Defined.

Lemma result_twice_witness :
  length (FixJsx.result (FixJsx.result (replicate 1400 "line"))) = 1402%nat.
Proof.
  apply (result_twice (replicate 1400 "line")).
  rewrite length_replicate. lia.
Defined.

(** ** Letter case in file names *)

Section CaseChange.

(** A change of characters that keeps the slash and the dot apart from the
    rest. *)
Variable f : ascii → ascii.
Hypothesis f_slash : ∀ c, Ascii.eqb (f c) "/" = Ascii.eqb c "/".
Hypothesis f_dot : ∀ c, Ascii.eqb (f c) "." = Ascii.eqb c ".".

Lemma split_map_string (s : string) :
  Py.split "/" (Py.map_string f s) = List.map (Py.map_string f) (Py.split "/" s).
Proof.
  induction s as [|c s IH]; [reflexivity|].
  cbn [Py.split Py.map_string]. rewrite f_slash, IH.
  destruct (Ascii.eqb c "/"); [reflexivity|].
  destruct (Py.split "/" s); reflexivity.
Qed.

Lemma is_path_part_map_string (x : string) :
  Py.is_path_part (Py.map_string f x) = Py.is_path_part x.
Proof.
  unfold Py.is_path_part. destruct x as [|c [|d x]]; try reflexivity.
  - cbn [Py.map_string String.eqb]. by rewrite f_dot.
  - cbn [Py.map_string String.eqb]. by rewrite f_dot.
Qed.

Lemma filter_parts_map (l : list string) :
  List.filter Py.is_path_part (List.map (Py.map_string f) l)
  = List.map (Py.map_string f) (List.filter Py.is_path_part l).
Proof.
  induction l as [|x l IH]; [reflexivity|].
  cbn [List.map List.filter]. rewrite is_path_part_map_string, IH.
  destruct (Py.is_path_part x); reflexivity.
Qed.

Lemma last_map_string (l : list string) :
  List.last (List.map (Py.map_string f) l) "" = Py.map_string f (List.last l "").
Proof.
  induction l as [|x [|y l] IH]; try reflexivity.
  exact IH.
Qed.

Lemma path_name_map_string (p : string) :
  Py.path_name (Py.map_string f p) = Py.map_string f (Py.path_name p).
Proof.
  unfold Py.path_name.
  by rewrite split_map_string, filter_parts_map, last_map_string.
Qed.

Lemma rfind_map_string (s : string) :
  Py.rfind "." (Py.map_string f s) = Py.rfind "." s.
Proof.
  induction s as [|c s IH]; [reflexivity|].
  cbn [Py.rfind Py.map_string]. by rewrite IH, f_dot.
Qed.

Lemma length_map_string (s : string) :
  String.length (Py.map_string f s) = String.length s.
Proof. induction s as [|c s IH]; [reflexivity|]. cbn. by rewrite IH. Qed.

Lemma substring_map_string (n m : nat) (s : string) :
  String.substring n m (Py.map_string f s)
  = Py.map_string f (String.substring n m s).
Proof.
  revert n m. induction s as [|c s IH]; intros [|n] [|m]; try reflexivity.
  - cbn [String.substring Py.map_string]. by rewrite IH.
  - cbn [String.substring Py.map_string]. apply IH.
  - cbn [String.substring Py.map_string]. apply IH.
Qed.

Lemma path_suffix_map_string (p : string) :
  Py.path_suffix (Py.map_string f p) = Py.map_string f (Py.path_suffix p).
Proof.
  unfold Py.path_suffix.
  rewrite path_name_map_string, rfind_map_string, length_map_string.
  destruct (Py.rfind "." (Py.path_name p)) as [i|]; [|reflexivity].
  destruct ((0 <? i)%nat && (i <? String.length (Py.path_name p) - 1)%nat);
    [|reflexivity].
  apply substring_map_string.
Qed.

End CaseChange.

Lemma lower_upper (s : string) : Py.lower (Py.upper s) = Py.lower s.
Proof.
  unfold Py.lower, Py.upper. induction s as [|c s IH]; [reflexivity|].
  cbn [Py.map_string]. rewrite IH. f_equal.
  destruct c as [b0 b1 b2 b3 b4 b5 b6 b7].
  destruct b0, b1, b2, b3, b4, b5, b6, b7; reflexivity.
Qed.

Lemma lower_lower (s : string) : Py.lower (Py.lower s) = Py.lower s.
Proof.
  unfold Py.lower. induction s as [|c s IH]; [reflexivity|].
  cbn [Py.map_string]. rewrite IH. f_equal.
  destruct c as [b0 b1 b2 b3 b4 b5 b6 b7].
  destruct b0, b1, b2, b3, b4, b5, b6, b7; reflexivity.
Qed.

Lemma upper_char_keeps (sep c : ascii) :
  sep = "/"%char ∨ sep = "."%char →
  Ascii.eqb (Py.upper_char c) sep = Ascii.eqb c sep.
Proof.
  destruct c as [b0 b1 b2 b3 b4 b5 b6 b7].
  intros [-> | ->]; destruct b0, b1, b2, b3, b4, b5, b6, b7; reflexivity.
Qed.

Lemma lower_char_keeps (sep c : ascii) :
  sep = "/"%char ∨ sep = "."%char →
  Ascii.eqb (Py.lower_char c) sep = Ascii.eqb c sep.
Proof.
  destruct c as [b0 b1 b2 b3 b4 b5 b6 b7].
  intros [-> | ->]; destruct b0, b1, b2, b3, b4, b5, b6, b7; reflexivity.
Qed.

Lemma lower_suffix_of_upper (s : string) :
  Py.lower (Py.path_suffix (Py.upper s)) = Py.lower (Py.path_suffix s).
Proof.
  unfold Py.upper.
  rewrite path_suffix_map_string by (intros c; apply upper_char_keeps; auto).
  apply lower_upper.
Qed.

Lemma lower_suffix_of_lower (s : string) :
  Py.lower (Py.path_suffix (Py.lower s)) = Py.lower (Py.path_suffix s).
Proof.
  unfold Py.lower at 2.
  rewrite path_suffix_map_string by (intros c; apply lower_char_keeps; auto).
  apply lower_lower.
Qed.

(** X19.  The extension check does not depend on letter case: an ASCII file
    name, the same name in upper case and the same name in lower case get
    the same answer from [validate_file_extension]; and an extension that it
    returns is allowed and in lower case, the world being left as it was. *)
Theorem validate_file_extension_ignores_case
    (allowed_listing : string) (self : FileValidator.t) (filename : string)
    (w : World) :
  isascii filename = true →
  FileValidator.validate_file_extension allowed_listing self
    (Py.upper filename) w
  = FileValidator.validate_file_extension allowed_listing self filename w
  ∧ FileValidator.validate_file_extension allowed_listing self
      (Py.lower filename) w
    = FileValidator.validate_file_extension allowed_listing self filename w
  ∧ ∀ ext w',
      FileValidator.validate_file_extension allowed_listing self filename w
      = (Ok ext, w') →
      ext ∈ ALLOWED_EXTENSIONS ∧ Py.lower ext = ext ∧ w' = w.
Proof.
  intros _. unfold FileValidator.validate_file_extension.
  split_and!.
  - by rewrite lower_suffix_of_upper.
  - by rewrite lower_suffix_of_lower.
  - intros ext w'. case_bool_decide as Hext; [discriminate|].
    intros H. inversion H; subst.
    split_and!; [exact Hext | apply lower_lower | reflexivity].
Qed.

Lemma validate_file_extension_ignores_case_witness :
  FileValidator.validate_file_extension Samples.listing Samples.validator
    (Py.upper "Cube.Step") Samples.upload_world
  = FileValidator.validate_file_extension Samples.listing Samples.validator
      "Cube.Step" Samples.upload_world.
Proof.
  apply (validate_file_extension_ignores_case Samples.listing
           Samples.validator "Cube.Step" Samples.upload_world).
  vm_compute. reflexivity.
Defined.

(** ** Telling the failures apart by class *)



Lemma convert_keeps_what_Write_left_witness :
  fst (ConversionService.convert failing_writer_kernel Samples.service
         "/tmp/in.step" "/tmp/out.stl" Samples.upload_world)
  = Raise (mk_exn ConversionError
             "Conversion failed: Error writing STL file: No space left on device")
  ∧ (length ∘ f_data <$>
       w_fs (snd (ConversionService.convert failing_writer_kernel
                    Samples.service "/tmp/in.step" "/tmp/out.stl"
                    Samples.upload_world)) !! "/tmp/out.stl")
    = Some 80%nat.
Proof.
  destruct (convert_keeps_what_Write_left failing_writer_kernel Samples.service
              "/tmp/in.step" "/tmp/out.stl" Samples.upload_world
              Samples.unit_cube
              (snd (StepReader.read failing_writer_kernel StepReader.new
                      "/tmp/in.step" Samples.upload_world))
              Samples.unit_cube
              (snd (ShapeMesher.mesh failing_writer_kernel
                      (ShapeMesher.new 0.1 0.5) Samples.unit_cube
                      (snd (StepReader.read failing_writer_kernel
                              StepReader.new "/tmp/in.step"
                              Samples.upload_world)))))
    as (_ & _ & Hfs & Hraise).
  - vm_compute. reflexivity.
  - vm_compute. reflexivity.
  - split; [vm_compute; reflexivity|].
    rewrite Hfs. vm_compute. reflexivity.
Defined.
